(** * Polymarket positions report: a shallow embedding and its properties

    The development follows [email/create_html.py] (the report transform
    [df_to_pretty_html_marketstyle] and the driver [create_and_send_report])
    and [email/gmail_sender.py] / [email/smtp_config.py] (delivery).

    Conventions of the embedding:
    - a Python float is an exact rational ([Q]); [NaN] is the absent value,
      so a numeric pandas Series is a [list (option Q)];
    - a fetched record (a JSON object) is a [gmap string cell]; a DataFrame
      is its column index together with its rows, and a key that a row does
      not carry reads as [NaN], as [pd.DataFrame] fills it;
    - what pandas and Python do to text (parsing a string as a number,
      printing a float, a format specification) is a parameter, the record
      [runtime]; it also records the one point where the pandas releases
      that [setup.py] admits ([pandas>=2.0.0]) differ for this program:
      what [Series.astype(str)] makes of a missing entry. *)

From Stdlib Require Import QArith Qabs Ascii String.
From stdpp Require Import gmap strings list fin_maps sorting pretty.

(** ** Cells, the runtime, and numeric Series *)

(** A value found in a column of the fetched payload. *)
Inductive cell :=
  | Num (q : Q)
  | Str (s : string)
  | NaN.

(** The text primitives of pandas and Python the report relies on. *)
Record runtime := Runtime {
  parse_float : string -> option Q;      (* pd.to_numeric on one string *)
  str_of_float : Q -> string;            (* str(x) for a float *)
  format_float : string -> Q -> string;  (* format(x, spec), e.g. ",.2f" *)
  astype_keeps_missing : bool            (* astype(str) leaves a missing entry
                                            missing (pandas 3); otherwise it
                                            becomes the text nan (pandas 2) *)
}.

(** [series] is a float64 Series: one optional number per row. *)
Abbreviation series := (list (option Q)).

(** [NaN] cells of a Series built by [pd.Series([np.nan] * n)]. *)
Definition nan_series (n : nat) : series := replicate n None.

Definition notna (x : option Q) : bool :=
  match x with Some _ => true | None => false end.

Definition isna (x : option Q) : bool := negb (notna x).

(** [col.notna().any()] *)
Definition notna_any (col : series) : bool := existsb notna col.

(** [col.dropna()] *)
Definition dropna (col : series) : list Q := omap id col.

(** [col / d] and [col * k], element by element; [NaN] stays [NaN]. *)
Definition series_div (col : series) (d : Q) : series :=
  fmap (M := option) (fun x => (x / d)%Q) <$> col.

Definition series_mul (col : series) (k : Q) : series :=
  fmap (M := option) (fun x => (x * k)%Q) <$> col.

(** [col.sum()]: pandas skips [NaN]; the empty sum is 0. *)
Definition series_sum (col : series) : Q :=
  foldr (fun x acc => (default 0%Q x + acc)%Q) 0%Q col.

Definition Qgtb (a b : Q) : bool := negb (Qle_bool a b).

(** *** Median of the parsed values ([Series.median]) *)

Fixpoint insert_asc (x : Q) (l : list Q) : list Q :=
  match l with
  | [] => [x]
  | y :: l' => if Qle_bool x y then x :: l else y :: insert_asc x l'
  end.

Definition sort_asc (l : list Q) : list Q := foldr insert_asc [] l.

(** Middle element of the sorted values, or the mean of the two middle ones;
    [None] stands for the [NaN] pandas returns on an empty Series. *)
Definition median (l : list Q) : option Q :=
  let s := sort_asc l in
  let n := length s in
  if Nat.even n
  then match s !! (n / 2 - 1)%nat, s !! (n / 2)%nat with
       | Some a, Some b => Some ((a + b) / 2)%Q
       | _, _ => None
       end
  else s !! (n / 2)%nat.

(** ** DataFrames *)

Record DataFrame := mkDataFrame {
  columns : gset string;
  rows : list (gmap string cell)
}.

(** [pd.DataFrame(data)] for a list of JSON objects: the columns are the
    keys that occur in some record. *)
Definition DataFrame_of (data : list (gmap string cell)) : DataFrame :=
  {| columns := ⋃ (dom <$> data); rows := data |}.

(** [len(df)] *)
Definition len (df : DataFrame) : nat := length (rows df).

(** [colname in df.columns] *)
Definition has_column (df : DataFrame) (colname : string) : bool :=
  bool_decide (colname ∈ columns df).

(** [row[colname]] *)
Definition get (r : gmap string cell) (colname : string) : cell :=
  default NaN (r !! colname).

(** [df[colname]] *)
Definition df_col (df : DataFrame) (colname : string) : list cell :=
  (fun r => get r colname) <$> rows df.

(** [df[colname]] guarded by the membership test. *)
Definition column_of (df : DataFrame) (colname : string) : option (list cell) :=
  if has_column df colname then Some (df_col df colname) else None.

Section Transform.

Variable rt : runtime.

(** [pd.to_numeric(x, errors="coerce")] on one cell. *)
Definition to_numeric1 (c : cell) : option Q :=
  match c with
  | Num q => Some q
  | Str s => parse_float rt s
  | NaN => None
  end.

(** [pd.to_numeric(col, errors="coerce")] *)
Definition to_numeric (col : list cell) : series := to_numeric1 <$> col.

(** *** The two unit normalizers (helpers of the report function) *)

Definition _to_pct01 (df : DataFrame) (colname : string) : series :=
  if negb (has_column df colname) then nan_series (len df)
  else
    let col := to_numeric (df_col df colname) in
    if notna_any col then
      match dropna col !! 0%nat with
      | Some s => if Qgtb (Qabs s) 1.5 then series_div col 100 else col
      | None => col
      end
    else col.

Definition _to_cents (df : DataFrame) (colname : string) : series :=
  if negb (has_column df colname) then nan_series (len df)
  else
    let col := to_numeric (df_col df colname) in
    let med := if notna_any col then median (dropna col) else None in
    match med with
    | Some m => if Qle_bool m 1.5 then series_mul col 100 else col
    | None => col
    end.

(** *** Text helpers: [str.lower], [str.strip], [astype(str)] *)

Definition lower_ascii (c : ascii) : ascii :=
  let n := nat_of_ascii c in
  if (65 <=? n)%nat && (n <=? 90)%nat then ascii_of_nat (n + 32) else c.

Fixpoint lower (s : string) : string :=
  match s with
  | EmptyString => EmptyString
  | String c s' => String (lower_ascii c) (lower s')
  end.

Definition is_space (c : ascii) : bool :=
  let n := nat_of_ascii c in
  ((9 <=? n)%nat && (n <=? 13)%nat) || ((28 <=? n)%nat && (n <=? 32)%nat).

Fixpoint lstrip (s : string) : string :=
  match s with
  | EmptyString => EmptyString
  | String c s' => if is_space c then lstrip s' else s
  end.

Fixpoint rstrip (s : string) : string :=
  match s with
  | EmptyString => EmptyString
  | String c s' =>
      match rstrip s' with
      | EmptyString => if is_space c then EmptyString else String c EmptyString
      | t => String c t
      end
  end.

Definition strip (s : string) : string := rstrip (lstrip s).

(** Python's truth value of a string. *)
Definition nonempty (s : string) : bool :=
  match s with EmptyString => false | _ => true end.

(** One entry of [Series.astype(str)]; [None] is an entry that is still
    missing afterwards.  pandas 2 turns a missing entry into the text [nan];
    pandas 3 converts to its string dtype and keeps the entry missing. *)
Definition astype_str1 (c : cell) : option string :=
  match c with
  | Num q => Some (str_of_float rt q)
  | Str s => Some s
  | NaN => if astype_keeps_missing rt then None else Some "nan"
  end.

Definition astype_str (col : list cell) : list (option string) :=
  astype_str1 <$> col.

(** The double quote, for attribute values. *)
Definition dq : string := String (ascii_of_nat 34) EmptyString.

(** [" ".join(bits)] *)
Fixpoint join_sp (bits : list string) : string :=
  match bits with
  | [] => EmptyString
  | [b] => b
  | b :: bits' => b +:+ " " +:+ join_sp bits'
  end.

(** *** Formatting helpers of the report function *)

Definition _fmt_cents (x : option Q) : string :=
  match x with
  | None => EmptyString
  | Some v => format_float rt ".0f" v +:+ "¢"
  end.

Definition _fmt_money (x : option Q) : string :=
  match x with
  | None => EmptyString
  | Some v => "$" +:+ format_float rt ",.2f" v
  end.

(** The class chosen on line 70 of the source. *)
Definition pnl_sign (cash pct01 : option Q) : string :=
  if (notna cash && Qle_bool 0 (default 0%Q cash))
     || (isna cash && notna pct01 && Qle_bool 0 (default 0%Q pct01))
  then "pos" else "neg".

Definition _fmt_pnl_line (cash pct01 : option Q) : string :=
  if isna cash && isna pct01 then EmptyString
  else
    let cash_s := if notna cash then _fmt_money cash else EmptyString in
    let pct_s :=
      match pct01 with
      | Some p => format_float rt ".2f" (p * 100)%Q +:+ "%"
      | None => EmptyString
      end in
    let sign := pnl_sign cash pct01 in
    let inner :=
      (if nonempty cash_s then [cash_s] else [])
      ++ (if nonempty pct_s then ["(" +:+ pct_s +:+ ")"] else []) in
    "<span class=" +:+ dq +:+ "pnl " +:+ sign +:+ dq +:+ ">"
      +:+ join_sp inner +:+ "</span>".

(** ** The report function [df_to_pretty_html_marketstyle] *)

(** Default column names (the keyword arguments of the function). *)
Definition title_col : string := "title".
Definition slug_col : string := "marketSlug".
Definition logo_col : string := "icon".
Definition side_col : string := "outcome".
Definition size_col : string := "size".
Definition avg_price_col : string := "avgPrice".
Definition cur_price_col : string := "curPrice".
Definition value_col : string := "currentValue".
Definition cash_pnl_col : string := "cashPnl".
Definition pct_pnl_col : string := "percentPnl".

(** *** Sorting by value and filtering out zero values *)

Definition cell_of_float (x : option Q) : cell :=
  match x with Some q => Num q | None => NaN end.

(** Reading an entry of a float64 column. *)
Definition float_of_cell (c : cell) : option Q :=
  match c with Num q => Some q | _ => None end.

(** [df[colname] = vals] *)
Definition set_column (df : DataFrame) (colname : string) (vals : list cell)
  : DataFrame :=
  {| columns := {[colname]} ∪ columns df;
     rows := zip_with (fun r v => <[colname := v]> r) (rows df) vals |}.

(** [x > 0] on a float; a comparison with [NaN] is false. *)
Definition gt0 (x : option Q) : bool :=
  match x with Some q => Qgtb q 0 | None => false end.

(** The float a row holds in column [colname]. *)
Definition float_at (colname : string) (r : gmap string cell) : option Q :=
  float_of_cell (get r colname).

(** [df[df[colname] > 0]] *)
Definition select_gt0 (df : DataFrame) (colname : string) : DataFrame :=
  {| columns := columns df;
     rows := filter (fun r => gt0 (float_at colname r) = true) (rows df) |}.

(** [a] may stand before [b] in descending order; [NaN] goes last. *)
Definition desc_leb (a b : option Q) : bool :=
  match a, b with
  | Some x, Some y => Qle_bool y x
  | _, None => true
  | None, Some _ => false
  end.

Fixpoint insert_desc (key : gmap string cell -> option Q)
    (r : gmap string cell) (l : list (gmap string cell))
  : list (gmap string cell) :=
  match l with
  | [] => [r]
  | r' :: l' =>
      if desc_leb (key r) (key r') then r :: l else r' :: insert_desc key r l'
  end.

(** [df.sort_values(by=colname, ascending=False).reset_index(drop=True)].
    Rows are positional here, so the index reset changes nothing.  pandas
    leaves the order of equal keys open; this sort keeps their input order. *)
Definition sort_values_desc (df : DataFrame) (colname : string) : DataFrame :=
  {| columns := columns df;
     rows := foldr (insert_desc (float_at colname)) [] (rows df) |}.

(** Lines 77-81: coerce the value column, keep the positive rows, sort. *)
Definition sort_and_filter (df : DataFrame) : DataFrame :=
  if has_column df value_col then
    let coerced := cell_of_float <$> to_numeric (df_col df value_col) in
    let df1 := set_column df value_col coerced in
    let df2 := select_gt0 df1 value_col in
    sort_values_desc df2 value_col
  else df.

(** *** The MARKET cell *)

Record market_cell := MarketCell {
  logo_html : string;
  title_html : string;
  chip_html : string;
  position_html : string
}.

(** The four text Series of lines 84-91; an entry is [None] where
    [pd.notna] is false on it. *)
Definition titles (df : DataFrame) : list (option string) :=
  if has_column df title_col then astype_str (df_col df title_col)
  else if has_column df "marketQuestion"
       then astype_str (df_col df "marketQuestion")
       else replicate (len df) (Some EmptyString).

Definition slugs (df : DataFrame) : list (option string) :=
  if has_column df slug_col then astype_str (df_col df slug_col)
  else replicate (len df) None.

Definition logos (df : DataFrame) : list (option string) :=
  if has_column df logo_col then astype_str (df_col df logo_col)
  else replicate (len df) (Some EmptyString).

Definition side (df : DataFrame) : list (option string) :=
  if has_column df side_col then astype_str (df_col df side_col)
  else replicate (len df) (Some EmptyString).

Definition shares (df : DataFrame) : series :=
  if has_column df size_col then to_numeric (df_col df size_col)
  else nan_series (len df).

Definition tag (name cls body : string) : string :=
  "<" +:+ name +:+ " class=" +:+ dq +:+ cls +:+ dq +:+ ">" +:+ body
    +:+ "</" +:+ name +:+ ">".

(** The chip of one row, from the text of its side entry. *)
Definition chip_of (side_val : string) : string :=
  if String.eqb (lower side_val) "yes" then tag "span" "chip chip-yes" side_val
  else if String.eqb (lower side_val) "no" then tag "span" "chip chip-no" side_val
  else if nonempty side_val then tag "span" "chip" side_val
  else EmptyString.

(** The body of the loop of lines 96-141 for one row; the first four
    arguments are the entries read with [iloc], and the four guards of lines
    97-100 start with [pd.notna]. *)
Definition market_cell_of (title_raw slug_raw logo_raw side_raw : option string)
    (share avg : option Q) : market_cell :=
  let title_txt :=
    match title_raw with Some t => t | None => EmptyString end in
  let slug :=
    match slug_raw with
    | Some s => if String.eqb (lower s) "nan" then None else Some s
    | None => None
    end in
  let logo :=
    match logo_raw with
    | Some l => if nonempty (strip l) then l else EmptyString
    | None => EmptyString
    end in
  let side_val :=
    match side_raw with
    | Some v => if nonempty v then v else EmptyString
    | None => EmptyString
    end in
  let title_html :=
    match slug with
    | Some s =>
        if nonempty s
        then "<a class=" +:+ dq +:+ "title-link" +:+ dq +:+ " target=" +:+ dq
               +:+ "_blank" +:+ dq +:+ " href=" +:+ dq
               +:+ "https://polymarket.com/market/" +:+ s +:+ dq +:+ ">"
               +:+ title_txt +:+ "</a>"
        else tag "span" "title-text" title_txt
    | None => tag "span" "title-text" title_txt
    end in
  let logo_html :=
    if nonempty logo
    then "<img class=" +:+ dq +:+ "logo" +:+ dq +:+ " src=" +:+ dq +:+ logo
           +:+ dq +:+ " alt=" +:+ dq +:+ "logo" +:+ dq +:+ ">"
    else EmptyString in
  let position_bits :=
    match share with
    | Some x => [format_float rt ",.1f" x +:+ " shares"]
    | None => []
    end
    ++ (if notna avg then ["at " +:+ _fmt_cents avg] else []) in
  let position_info := join_sp position_bits in
  {| logo_html := logo_html;
     title_html := title_html;
     chip_html := chip_of side_val;
     position_html :=
       if nonempty position_info then tag "div" "position-info" position_info
       else EmptyString |}.

(** [s.iloc[i]]; every Series read below has [len df] entries, see
    [series_lengths], so the default is never used. *)
Definition iloc {A : Type} (d : A) (s : list A) (i : nat) : A :=
  default d (s !! i).

Definition market_cells (df : DataFrame) : list market_cell :=
  let avg_c := _to_cents df avg_price_col in
  (fun i =>
     market_cell_of (iloc None (titles df) i) (iloc None (slugs df) i)
       (iloc None (logos df) i) (iloc None (side df) i)
       (iloc None (shares df) i) (iloc None avg_c i))
  <$> seq 0 (len df).

(** *** AVG / CURRENT / VALUE *)

Definition value (df : DataFrame) : series :=
  if has_column df value_col then to_numeric (df_col df value_col)
  else nan_series (len df).

Definition cash (df : DataFrame) : series :=
  if has_column df cash_pnl_col then to_numeric (df_col df cash_pnl_col)
  else nan_series (len df).

Definition value_cells (df : DataFrame) : list string :=
  let pct01 := _to_pct01 df pct_pnl_col in
  (fun i =>
     let vline := _fmt_money (iloc None (value df) i) in
     let pline := _fmt_pnl_line (iloc None (cash df) i) (iloc None pct01 i) in
     tag "div" "val" vline
       +:+ (if nonempty pline then tag "div" "sub" pline else EmptyString))
  <$> seq 0 (len df).

(** One row of the [display] frame. *)
Record display_row := DisplayRow {
  MARKET : market_cell;
  AVG : string;
  CURRENT : string;
  VALUE : string
}.

Definition empty_market_cell : market_cell :=
  MarketCell EmptyString EmptyString EmptyString EmptyString.

Definition display (df : DataFrame) : list display_row :=
  let avg_disp := _fmt_cents <$> _to_cents df avg_price_col in
  let cur_disp := _fmt_cents <$> _to_cents df cur_price_col in
  (fun i =>
     {| MARKET := iloc empty_market_cell (market_cells df) i;
        AVG := iloc EmptyString avg_disp i;
        CURRENT := iloc EmptyString cur_disp i;
        VALUE := iloc EmptyString (value_cells df) i |})
  <$> seq 0 (len df).

(** *** The table body, with a separator every 5 rows *)

Inductive tr :=
  | Separator
  | DataRow (row : display_row).

(** The loop over [display.iterrows()], started at index [i]. *)
Fixpoint rows_html_from (i : nat) (rows : list display_row) : list tr :=
  match rows with
  | [] => []
  | row :: rest =>
      (if (0 <? i)%nat && (i mod 5 =? 0)%nat then [Separator] else [])
      ++ DataRow row :: rows_html_from (S i) rest
  end.

Definition rows_html (rows : list display_row) : list tr :=
  rows_html_from 0 rows.

(** *** The stats bar and the whole report *)

Record report := Report {
  total_positions : nat;        (* len(df) *)
  total_value : Q;              (* value.sum() *)
  total_pnl : Q;                (* cash.sum() *)
  total_value_text : string;
  total_pnl_text : string;
  total_pnl_color : string;
  tbody : list tr
}.

(** The data the template of the function is filled with, for the frame as
    it stands after sorting and filtering. *)
Definition report_of (df : DataFrame) : report :=
  {| total_positions := len df;
     total_value := series_sum (value df);
     total_pnl := series_sum (cash df);
     total_value_text := "$" +:+ format_float rt ",.0f" (series_sum (value df));
     total_pnl_text := "$" +:+ format_float rt "+,.0f" (series_sum (cash df));
     total_pnl_color :=
       if Qle_bool 0 (series_sum (cash df)) then "#10b981" else "#ef4444";
     tbody := rows_html (display df) |}.

Definition df_to_pretty_html_marketstyle (df : DataFrame) : report :=
  report_of (sort_and_filter df).

End Transform.

(** ** A runtime instance, to evaluate the functions on concrete frames

    Decimal literals are parsed ([-12.5], [7]); a float is printed in fixed
    point with half-even rounding, a thousands separator for [,] and a sign
    for [+] in the format specification. *)

Module SampleRuntime.

Definition digit_of (c : ascii) : option N :=
  let n := N_of_ascii c in
  if (48 <=? n)%N && (n <=? 57)%N then Some (n - 48)%N else None.

Fixpoint digits_from (acc : N) (s : string) : option N :=
  match s with
  | EmptyString => Some acc
  | String c s' =>
      match digit_of c with
      | Some d => digits_from (acc * 10 + d)%N s'
      | None => None
      end
  end.

Fixpoint split_dot (s : string) : string * option string :=
  match s with
  | EmptyString => (EmptyString, None)
  | String c s' =>
      if Ascii.eqb c "."%char then (EmptyString, Some s')
      else let '(a, b) := split_dot s' in (String c a, b)
  end.

Definition parse_unsigned (s : string) : option Q :=
  let '(ip, fp) := split_dot s in
  let fp := default EmptyString fp in
  if nonempty ip || nonempty fp then
    match digits_from 0 ip, digits_from 0 fp with
    | Some i, Some f =>
        let scale := (10 ^ N.of_nat (String.length fp))%N in
        Some (Qmake (Z.of_N (i * scale + f)) (Pos.of_nat (N.to_nat scale)))
    | _, _ => None
    end
  else None.

Definition parse (s : string) : option Q :=
  match s with
  | String c s' =>
      if Ascii.eqb c "-"%char then Qopp <$> parse_unsigned s'
      else parse_unsigned s
  | EmptyString => None
  end.

Fixpoint group3 (digits : list ascii) : list ascii :=
  match digits with
  | a :: b :: c :: (_ :: _) as rest => a :: b :: c :: ","%char :: group3 rest
  | _ => digits
  end.

(** Thousands separators, counted from the right. *)
Definition with_commas (s : string) : string :=
  string_of_list_ascii (rev (group3 (rev (list_ascii_of_string s)))).

Fixpoint pad_left (n : nat) (s : string) : string :=
  match n with
  | O => s
  | S n' => if (String.length s <? n)%nat then pad_left n' ("0" +:+ s) else s
  end.

Definition fixed (plus comma : bool) (prec : nat) (q : Q) : string :=
  let neg := Qgtb 0 q in
  let a := Qabs q in
  let scale := (10 ^ Z.of_nat prec)%Z in
  let n := (Qnum a * scale)%Z in
  let d := Z.pos (Qden a) in
  let fl := (n / d)%Z in
  let r := (n mod d)%Z in
  let up := (d <? 2 * r)%Z || ((d =? 2 * r)%Z && Z.odd fl) in
  let m := if up then (fl + 1)%Z else fl in
  let ip := pretty (m / scale)%Z in
  let ip := if comma then with_commas ip else ip in
  let fp := pad_left prec (pretty (m mod scale)%Z) in
  (if neg then "-" else if plus then "+" else EmptyString)
    +:+ ip +:+ (if (0 <? prec)%nat then "." +:+ fp else EmptyString).

Definition format (spec : string) (q : Q) : string :=
  if String.eqb spec ".0f" then fixed false false 0 q
  else if String.eqb spec ".2f" then fixed false false 2 q
  else if String.eqb spec ",.1f" then fixed false true 1 q
  else if String.eqb spec ",.2f" then fixed false true 2 q
  else if String.eqb spec ",.0f" then fixed false true 0 q
  else if String.eqb spec "+,.0f" then fixed true true 0 q
  else fixed false false 6 q.

Definition py : runtime :=
  {| parse_float := parse;
     str_of_float := fixed false false 1;
     format_float := format;
     astype_keeps_missing := false |}.

(** The same text primitives under pandas 3, where [astype(str)] keeps a
    missing entry missing. *)
Definition py3 : runtime :=
  {| parse_float := parse;
     str_of_float := fixed false false 1;
     format_float := format;
     astype_keeps_missing := true |}.

End SampleRuntime.

(** ** Delivery: [gmail_sender.py], [smtp_config.py] and the driver
    [create_and_send_report]

    Effects are explicit: a computation takes the world (the files on disk
    and the trace of what was done so far) and returns the world it leaves
    together with a value or a raised exception.  [exn] ranges over the
    subclasses of Python's [Exception]. *)

Module Delivery.

Inductive exn :=
  | ValueError (msg : string)
  | OSError (errno : option Z) (msg : string)   (* socket.error *)
  | SMTPAuthenticationError
  | SMTPException (msg : string)
  | OtherException (msg : string).

Inductive result (A : Type) :=
  | Return (a : A)
  | Raise (e : exn).
Arguments Return {A} a.
Arguments Raise {A} e.

Inductive event :=
  | EvFetch (url : string)
  | EvWrite (path : string)
  | EvSmtp (recipients : list string).

Record world := World {
  files : gmap string string;
  trace : list event          (* oldest first *)
}.

Definition M (A : Type) : Type := world -> world * result A.

Definition ret {A} (a : A) : M A := fun w => (w, Return a).
Definition raise {A} (e : exn) : M A := fun w => (w, Raise e).
Definition bind {A B} (m : M A) (k : A -> M B) : M B :=
  fun w =>
    match m w with
    | (w', Return a) => k a w'
    | (w', Raise e) => (w', Raise e)
    end.

(** [try: m  except <exceptions selected by handler>: ...]; a handler that
    answers [None] does not match, and the exception goes on. *)
Definition try_except {A} (m : M A) (handler : exn -> option (M A)) : M A :=
  fun w =>
    match m w with
    | (w', Return a) => (w', Return a)
    | (w', Raise e) =>
        match handler e with
        | Some h => h w'
        | None => (w', Raise e)
        end
    end.

Definition lift {A} (r : result A) : M A := fun w => (w, r).
Definition log (ev : event) : M unit :=
  fun w => ({| files := files w; trace := trace w ++ [ev] |}, Return tt).

Notation "x <- m ;; k" := (bind m (fun x => k))
  (at level 100, m at next level, right associativity).
Notation "m ;;; k" := (bind m (fun _ => k))
  (at level 100, right associativity).

(** What the process finds around it. *)
Record environment := Environment {
  getenv : string -> option string;                       (* os.getenv *)
  py_int : string -> option Z;                            (* int(text) *)
  int_error : string -> string;    (* the message of the ValueError that
                                      int(text) raises; it quotes the text *)
  http_get_json : string -> result (list (gmap string cell));
  write_error : string -> option exn;                     (* Path.write_text *)
  write_residue : string -> option string;
                                   (* what a write that raised has left in
                                      the file; None when the file could
                                      not be opened *)
  reread_error : string -> option exn;   (* open(path).read() raising on a
                                            file that is there *)
  mime_error : option exn;             (* building the MIME message *)
  smtp_error : list string -> option exn;   (* connect, TLS, login, sendmail *)
  template : report -> string          (* the HTML text around the report *)
}.

Record SMTPConfig := mkSMTPConfig {
  smtp_server : string;
  smtp_port : Z;
  sender_email : string;
  sender_password : string;
  sender_name : option string;
  use_tls : bool
}.

(** [needle in text] *)
Fixpoint contains (needle text : string) : bool :=
  String.prefix needle text
  || match text with
     | EmptyString => false
     | String _ text' => contains needle text'
     end.

Section Run.

Variable rt : runtime.
Variable env : environment.

Definition getenv_default (name dflt : string) : string :=
  default dflt (getenv env name).

Definition from_env : M SMTPConfig :=
  port <- match py_int env (getenv_default "SMTP_PORT" "587") with
          | Some p => ret p
          | None =>
              raise (ValueError (int_error env (getenv_default "SMTP_PORT" "587")))
          end ;;
  ret {| smtp_server := getenv_default "SMTP_SERVER" "smtp.gmail.com";
         smtp_port := port;
         sender_email := getenv_default "GMAIL_EMAIL" EmptyString;
         sender_password := getenv_default "GMAIL_APP_PASSWORD" EmptyString;
         sender_name := getenv env "SENDER_NAME";
         use_tls := String.eqb (lower (getenv_default "USE_TLS" "True")) "true" |}.

Definition validate (config : SMTPConfig) : M bool :=
  if negb (nonempty (sender_email config))
  then raise (ValueError "GMAIL_EMAIL environment variable is required")
  else if negb (nonempty (sender_password config))
  then raise (ValueError "GMAIL_APP_PASSWORD environment variable is required")
  else ret true.

(** [GmailSender()] *)
Definition GmailSender : M SMTPConfig :=
  config <- from_env ;;
  validate config ;;;
  ret config.

(** The SMTP session proper: the body of the [try] of [_send_message]. *)
Definition smtp_session (recipients : list string) : M unit :=
  log (EvSmtp recipients) ;;;
  match smtp_error env recipients with
  | Some e => raise e
  | None => ret tt
  end.

Definition _send_message (recipients : list string) : M bool :=
  try_except
    (smtp_session recipients ;;; ret true)
    (fun e =>
       match e with
       | OSError _ _ => Some (ret false)
       | SMTPAuthenticationError => Some (ret false)
       | SMTPException _ => Some (ret false)
       | _ => Some (ret false)          (* except Exception *)
       end).

(** [GmailSender.send_email], called with a single recipient and no
    attachment, copy or hidden copy, as the driver does. *)
Definition send_email (config : SMTPConfig) (to_emails : string)
    (subject body_html body_text : string) : M bool :=
  try_except
    (match mime_error env with
     | Some e => raise e
     | None => ret tt
     end ;;;
     _send_message [to_emails])
    (fun e => Some (ret false)).

(** [requests.get(URL).json()] and [pd.DataFrame(data)] *)
Definition get_user_positions (address : string) : M DataFrame :=
  let url := "https://data-api.polymarket.com/positions?user=" +:+ address in
  log (EvFetch url) ;;;
  data <- lift (http_get_json env url) ;;
  ret (DataFrame_of data).

(** [Path(out_path).write_text(html)]: the file is opened for writing,
    which creates it or empties it, and then written.  A write that raises
    leaves the files as they were when the file could not be opened, and
    leaves the file with what had reached it otherwise. *)
Definition write_text (path text : string) : M unit :=
  match write_error env path with
  | Some e =>
      fun w =>
        (match write_residue env path with
         | Some partial =>
             {| files := <[path := partial]> (files w); trace := trace w |}
         | None => w
         end, Raise e)
  | None =>
      fun w => ({| files := <[path := text]> (files w);
                   trace := trace w ++ [EvWrite path] |}, Return tt)
  end.

(** [open(path, 'r', encoding='utf-8').read()]; decoding can fail on a
    file that was written in another encoding. *)
Definition read_text (path : string) : M string :=
  fun w =>
    match files w !! path with
    | Some text =>
        match reread_error env path with
        | Some e => (w, Raise e)
        | None => (w, Return text)
        end
    | None => (w, Raise (OSError (Some 2%Z) "No such file or directory"))
    end.

(** The report function with its side effect: the file it writes. *)
Definition write_report (df : DataFrame) (out_path : string) : M string :=
  write_text out_path (template env (df_to_pretty_html_marketstyle rt df)) ;;;
  ret out_path.

Definition create_and_send_report (address : string)
    (recipient_email : option string) (send_email_flag : bool)
    (html_path : string) : M (string * option bool) :=
  df <- get_user_positions address ;;
  let df :=
    if negb (has_column df "title") && has_column df "marketQuestion"
    then set_column df "title" (df_col df "marketQuestion")
    else df in
  out <- write_report df html_path ;;
  match recipient_email with
  | Some recipient =>
      if send_email_flag && nonempty recipient then
        try_except
          (sender <- GmailSender ;;
           html_content <- read_text html_path ;;
           success <- send_email sender recipient
                        ("Polymarket Positions Report - "
                           +:+ String.substring 0 8 address +:+ "...")
                        html_content
                        "Please view this email in HTML format for the best experience." ;;
           ret (out, Some success))
          (fun e =>
             match e with
             | ValueError msg =>
                 if contains "GMAIL_EMAIL" msg || contains "GMAIL_APP_PASSWORD" msg
                 then Some (ret (out, Some false))
                 else None
             | _ => None
             end)
      else ret (out, None)
  | None => ret (out, None)
  end.

End Run.

End Delivery.

(** ** Vocabulary of the specification

    The definitions below follow the words of the specification; the
    theorems relate them to the functions above. *)

(** The first successfully parsed value of a column. *)
Fixpoint first_parsed (col : series) : option Q :=
  match col with
  | [] => None
  | Some x :: _ => Some x
  | None :: col' => first_parsed col'
  end.

(** Each entry of the column parsed, or absent; all absent when the frame
    has no such column. *)
Definition parsed_column (rt : runtime) (df : DataFrame) (colname : string)
  : series :=
  match column_of df colname with
  | Some raw => to_numeric rt raw
  | None => nan_series (len df)
  end.

(** [normalizePercent]: divide the whole column by 100 when the first
    parsed value exceeds 1.5 in absolute value. *)
Definition normalizePercent (parsed : series) : series :=
  match first_parsed parsed with
  | Some s =>
      if Qlt_le_dec 1.5 (Qabs s)
      then fmap (M := option) (fun x => (x / 100)%Q) <$> parsed
      else parsed
  | None => parsed
  end.

(** [normalizeCents]: multiply the whole column by 100 when the median of
    the parsed values is at most 1.5. *)
Definition normalizeCents (parsed : series) : series :=
  match median (dropna parsed) with
  | Some m =>
      if Qlt_le_dec 1.5 m
      then parsed
      else fmap (M := option) (fun x => (x * 100)%Q) <$> parsed
  | None => parsed
  end.

(** The median, said without sorting.  [count p l] is how many values of
    [l] satisfy [p]. *)
Fixpoint count (p : Q -> bool) (l : list Q) : nat :=
  match l with
  | [] => 0
  | y :: l' => (if p y then 1 else 0) + count p l'
  end.





(** Two Series with equal entries, as rationals. *)
Definition series_eq (a b : series) : Prop :=
  Forall2 (option_Forall2 Qeq) a b.

(** A frame with the single column [colname]. *)
Definition frame_of_column (colname : string) (vals : list cell) : DataFrame :=
  DataFrame_of ((fun v => {[ colname := v ]}) <$> vals).

(** The current value and the cash P&L of a record, parsed. *)
Definition currentValue (rt : runtime) (r : gmap string cell) : option Q :=
  to_numeric1 rt (get r value_col).

Definition cashPnl (rt : runtime) (r : gmap string cell) : option Q :=
  to_numeric1 rt (get r cash_pnl_col).

(** A record carries the field, whatever it holds. *)
Definition has_field (colname : string) (r : gmap string cell) : Prop :=
  is_Some (r !! colname).

(** The record as the frame keeps it: its current value as a number. *)
Definition coerce_value (rt : runtime) (r : gmap string cell)
  : gmap string cell :=
  <[value_col := cell_of_float (currentValue rt r)]> r.

(** The filter of the specification: a present, parseable, positive value. *)
Definition keeps (rt : runtime) (r : gmap string cell) : Prop :=
  gt0 (currentValue rt r) = true.

#[global] Instance keeps_dec rt r : Decision (keeps rt r) :=
  decide (gt0 (currentValue rt r) = true).

(** Sum of a field over records, an absent value counting as 0. *)
Definition sum_over (f : gmap string cell -> option Q)
    (l : list (gmap string cell)) : Q :=
  foldr (fun r acc => (default 0%Q (f r) + acc)%Q) 0%Q l.

(** The rows the report is made of: the records that pass the filter, each
    with its current value as a number, when the frame has the column; every
    record as it came otherwise. *)
Definition surviving (rt : runtime) (df : DataFrame) : list (gmap string cell) :=
  if has_column df value_col
  then coerce_value rt <$> filter (keeps rt) (rows df)
  else rows df.

(** The fetched records the report keeps, as they came. *)
Definition kept_records (rt : runtime) (data : list (gmap string cell))
  : list (gmap string cell) :=
  if has_column (DataFrame_of data) value_col
  then filter (keeps rt) data
  else data.

(** Every key of a row is a column of the frame, as [pd.DataFrame] builds it. *)
Definition well_formed (df : DataFrame) : Prop :=
  forall r c, r ∈ rows df -> has_field c r -> c ∈ columns df.

(** Row [a] may stand before row [b] in descending order of [key]. *)
Definition desc (key : gmap string cell -> option Q) (a b : gmap string cell)
  : Prop :=
  desc_leb (key a) (key b) = true.

(** The test of line 172: [i > 0 and i % 5 == 0]. *)
Definition separator_due (i : nat) : bool := (0 <? i)%nat && (i mod 5 =? 0)%nat.

(** The P&L line is shown as a gain. *)
Definition pnl_nonneg (cash pct01 : option Q) : Prop :=
  match cash, pct01 with
  | Some c, _ => (0 <= c)%Q
  | None, Some p => (0 <= p)%Q
  | None, None => False
  end.

(** The chips of the report rows, in order. *)
Definition chips (rt : runtime) (data : list (gmap string cell)) : list string :=
  chip_html <$> market_cells rt (sort_and_filter rt (DataFrame_of data)).

(** *** Sample record sets *)






(** The first record has no current value, the second a zero one, the third
    150.25 and the last a text that is no number. *)
Definition filter_sample : list (gmap string cell) :=
  [ {[ "title" := Str "absent" ]};
    {[ "title" := Str "zero"; "currentValue" := Num 0 ]};
    {[ "title" := Str "held"; "currentValue" := Num 150.25 ]};
    {[ "title" := Str "text"; "currentValue" := Str "n/a" ]} ].

Definition sort_sample : DataFrame :=
  frame_of_column "currentValue" [Num 10; Num 500; Num 1].

Definition summary_sample : list (gmap string cell) :=
  [ {[ "currentValue" := Num 100; "cashPnl" := Num 10 ]};
    {[ "currentValue" := Num 250; "cashPnl" := Num (-5) ]} ].

(** No record carries a current value; both carry a cash P&L. *)
Definition no_value_sample : list (gmap string cell) :=
  [ {[ "title" := Str "A"; "cashPnl" := Num 10 ]};
    {[ "title" := Str "B"; "cashPnl" := Num (-4) ]} ].

(** Two held positions; the second record carries no outcome. *)
Definition chip_sample : list (gmap string cell) :=
  [ {[ "title" := Str "A"; "outcome" := Str "Yes"; "currentValue" := Num 10 ]};
    {[ "title" := Str "B"; "currentValue" := Num 5 ]} ].

(** Twelve held positions, valued 12 down to 1. *)
Definition twelve_sample : DataFrame :=
  frame_of_column "currentValue"
    ((fun n => Num (inject_Z (Z.of_nat n))) <$> rev (seq 1 12)).

Module DeliverySpec.
Import Delivery.

(** The frame the driver hands to the report function. *)
Definition titled (df : DataFrame) : DataFrame :=
  if negb (has_column df "title") && has_column df "marketQuestion"
  then set_column df "title" (df_col df "marketQuestion")
  else df.

Definition positions_url (address : string) : string :=
  "https://data-api.polymarket.com/positions?user=" +:+ address.

(** Both credentials are set in the environment. *)
Definition credentials_set (env : environment) : bool :=
  nonempty (getenv_default env "GMAIL_EMAIL" EmptyString)
  && nonempty (getenv_default env "GMAIL_APP_PASSWORD" EmptyString).

(** Neither the message nor the SMTP session fails. *)
Definition send_succeeds (env : environment) (recipient : string) : bool :=
  match mime_error env, smtp_error env [recipient] with
  | None, None => true
  | _, _ => false
  end.

(** An environment with credentials in which the server refuses the login. *)
Definition refusing : environment :=
  {| getenv := fun name =>
       if String.eqb name "GMAIL_EMAIL" then Some "me@example.com"
       else if String.eqb name "GMAIL_APP_PASSWORD" then Some "secret"
       else None;
     py_int := fun s => Z.of_N <$> SampleRuntime.digits_from 0 s;
     int_error := fun s =>
       "invalid literal for int() with base 10: '" +:+ s +:+ "'";
     http_get_json := fun _ => Return chip_sample;
     write_error := fun _ => None;
     write_residue := fun _ => None;
     reread_error := fun _ => None;
     mime_error := None;
     smtp_error := fun _ => Some SMTPAuthenticationError;
     template := fun rep => pretty (total_positions rep) |}.

(** An environment with credentials and a willing server, whose [SMTP_PORT]
    is no integer. *)
Definition bad_port : environment :=
  {| getenv := fun name =>
       if String.eqb name "SMTP_PORT" then Some "abc" else getenv refusing name;
     py_int := py_int refusing;
     int_error := int_error refusing;
     http_get_json := http_get_json refusing;
     write_error := fun _ => None;
     write_residue := fun _ => None;
     reread_error := fun _ => None;
     mime_error := None;
     smtp_error := fun _ => None;
     template := template refusing |}.

(** A [ValueError] whose message the driver takes for a missing
    credential. *)
Definition names_credential (msg : string) : bool :=
  contains "GMAIL_EMAIL" msg || contains "GMAIL_APP_PASSWORD" msg.

(** What the driver makes of an exception raised while it delivers: a
    [ValueError] that names a credential ends the run with the report path
    and [False]; anything else is raised to the caller. *)
Definition handled (html_path : string) (e : exn)
  : result (string * option bool) :=
  match e with
  | ValueError msg =>
      if names_credential msg then Return (html_path, Some false) else Raise e
  | _ => Raise e
  end.

Definition world0 : world := {| files := ∅; trace := [] |}.

End DeliverySpec.

(** ** Further vocabulary: rows, messages and command lines *)

(** *** Reading a record through the frame *)

(** The number a frame holds for one of its rows in a column; absent when
    the frame has no such column. *)
Definition number_at (rt : runtime) (df : DataFrame) (colname : string)
    (r : gmap string cell) : option Q :=
  if has_column df colname then to_numeric1 rt (get r colname) else None.

(** The text a frame holds for one of its rows in a column, as
    [astype(str)] gives it ([None] is a missing entry); the empty text when
    the frame has no such column. *)
Definition text_at (rt : runtime) (df : DataFrame) (colname : string)
    (r : gmap string cell) : option string :=
  if has_column df colname then astype_str1 rt (get r colname)
  else Some EmptyString.

(** The title shown for a row: the title column, else the market question;
    an entry that is missing after [astype(str)] shows as the empty text. *)
Definition title_of (rt : runtime) (df : DataFrame) (r : gmap string cell)
  : string :=
  default EmptyString
    (if has_column df title_col then astype_str1 rt (get r title_col)
     else text_at rt df "marketQuestion" r).

(** The link and the plain form of a title. *)
Definition title_link (slug title_txt : string) : string :=
  "<a class=" +:+ dq +:+ "title-link" +:+ dq +:+ " target=" +:+ dq
    +:+ "_blank" +:+ dq +:+ " href=" +:+ dq
    +:+ "https://polymarket.com/market/" +:+ slug +:+ dq +:+ ">"
    +:+ title_txt +:+ "</a>".

Definition title_plain (title_txt : string) : string :=
  tag "span" "title-text" title_txt.

(** The data rows of a table body, in order, and the number of its
    separators. *)
Definition data_rows (body : list tr) : list display_row :=
  omap (fun t => match t with DataRow row => Some row | Separator => None end)
       body.

Fixpoint separator_count (body : list tr) : nat :=
  match body with
  | [] => 0
  | Separator :: body' => S (separator_count body')
  | DataRow _ :: body' => separator_count body'
  end.

(** A linked position with every field, and a bare one. *)
Definition row_sample : list (gmap string cell) :=
  [ {[ "title" := Str "Rain"; "marketSlug" := Str "will-it-rain";
       "size" := Num 12.5; "avgPrice" := Num 0.63; "curPrice" := Num 0.7;
       "currentValue" := Num 10; "cashPnl" := Num 1.5;
       "percentPnl" := Num 0.2 ]};
    {[ "title" := Str "Bare"; "currentValue" := Num 5 ]} ].

Definition row_frame : DataFrame :=
  sort_and_filter SampleRuntime.py (DataFrame_of row_sample).

(** The row with the market question copied into its title, as the driver
    does for a frame that has no title column. *)
Definition with_title (r : gmap string cell) : gmap string cell :=
  <["title" := get r "marketQuestion"]> r.

(** ** The whole of [GmailSender.send_email]

    The call of the driver uses one recipient and no attachment; here the
    function is taken with all its arguments.  A message is its headers, in
    the order they are set, and its parts, in the order they are attached. *)

Module Gmail.
Import Delivery.

(** [Union[str, List[str]]] *)
Inductive addresses :=
  | One (address : string)
  | Many (l : list string).

(** [[x] if isinstance(x, str) else x] *)
Definition to_list (a : addresses) : list string :=
  match a with One s => [s] | Many l => l end.

Inductive mime_part :=
  | MIMEText (body subtype : string)
  | MIMEFile (filename content : string).

Record MIMEMultipart := mkMessage {
  headers : list (string * string);
  payload : list mime_part
}.

(** [sep.join(l)] *)
Fixpoint join (sep : string) (l : list string) : string :=
  match l with
  | [] => EmptyString
  | [s] => s
  | s :: l' => s +:+ sep +:+ join sep l'
  end.

(** Truth value of an optional text and of an optional list. *)
Definition given (s : option string) : bool :=
  match s with Some t => nonempty t | None => false end.

Definition given_list (l : option (list string)) : bool :=
  match l with Some (_ :: _) => true | _ => false end.

Section Send.

Variable env : environment.
Variable path_name : string -> string.        (* Path(p).name *)
Variable stat_error : string -> option exn.   (* Path(p).exists(): a stat that
                                                 fails otherwise than by the
                                                 file not being there *)
Variable read_error : string -> option exn.   (* open(p, 'rb').read() and the
                                                 encoding of the part *)
Variable session_error : MIMEMultipart -> list string -> option exn.
                                   (* connect, TLS, login, as_string, sendmail *)

(** [_attach_file].  The test [path.exists()] stands before the [try]: an
    exception of it leaves the function.  A file that is not there, or that
    cannot be read, is logged and passed over. *)
Definition _attach_file (message : MIMEMultipart) (file_path : string)
  : M MIMEMultipart :=
  fun w =>
    match stat_error file_path with
    | Some e => (w, Raise e)
    | None =>
        match files w !! file_path with
        | None => (w, Return message)
        | Some content =>
            match read_error file_path with
            | Some _ => (w, Return message)
            | None =>
                (w, Return {| headers := headers message;
                              payload := payload message
                                ++ [MIMEFile (path_name file_path) content] |})
            end
        end
    end.

(** [for file_path in attachments: self._attach_file(message, file_path)] *)
Fixpoint attach_all (message : MIMEMultipart) (paths : list string)
  : M MIMEMultipart :=
  match paths with
  | [] => ret message
  | p :: paths' => message' <- _attach_file message p ;; attach_all message' paths'
  end.

(** Lines 58-100: the message and the list of all recipients.  Building the
    headers and the text parts can raise ([mime_error]), and so can attaching
    a file. *)
Definition prepare (config : SMTPConfig) (to_emails : addresses)
    (subject : string) (body_text body_html : option string)
    (attachments : option (list string))
    (cc_emails bcc_emails : option addresses) (reply_to : option string)
  : M (MIMEMultipart * list string) :=
  let to_emails := to_list to_emails in
  let cc_emails := to_list <$> cc_emails in
  let bcc_emails := to_list <$> bcc_emails in
  let sender :=
    (if given (sender_name config) then default EmptyString (sender_name config)
     else "Polymarket Analysis")
    +:+ " <" +:+ sender_email config +:+ ">" in
  match mime_error env with
  | Some e => raise e
  | None => ret tt
  end ;;;
  let message :=
    {| headers :=
         [("Subject", subject); ("From", sender); ("To", join ", " to_emails)]
         ++ (if given_list cc_emails
             then [("Cc", join ", " (default [] cc_emails))] else [])
         ++ (if given reply_to
             then [("Reply-To", default EmptyString reply_to)] else []);
       payload :=
         (if given body_text
          then [MIMEText (default EmptyString body_text) "plain"] else [])
         ++ (if given body_html
             then [MIMEText (default EmptyString body_html) "html"]
             else if negb (given body_text)
                  then [MIMEText "(No content)" "plain"] else []) |} in
  message <- (if given_list attachments
              then attach_all message (default [] attachments)
              else ret message) ;;
  let all_recipients :=
    to_emails
    ++ (if given_list cc_emails then default [] cc_emails else [])
    ++ (if given_list bcc_emails then default [] bcc_emails else []) in
  ret (message, all_recipients).

(** [_send_message(message, recipients)]: the SMTP session for this message
    and these recipients; every exception of it is answered by [False]. *)
Definition _send_message (message : MIMEMultipart) (recipients : list string)
  : M bool :=
  try_except
    (log (EvSmtp recipients) ;;;
     match session_error message recipients with
     | Some e => raise e
     | None => ret tt
     end ;;;
     ret true)
    (fun e => Some (ret false)).

Definition send_email (config : SMTPConfig) (to_emails : addresses)
    (subject : string) (body_text body_html : option string)
    (attachments : option (list string))
    (cc_emails bcc_emails : option addresses) (reply_to : option string)
  : M bool :=
  try_except
    (prepared <- prepare config to_emails subject body_text body_html
                   attachments cc_emails bcc_emails reply_to ;;
     _send_message (fst prepared) (snd prepared))
    (fun e => Some (ret false)).

(** [send_html_email] *)
Definition send_html_email (config : SMTPConfig) (to_emails : addresses)
    (subject html_content : string) (attachments : option (list string))
  : M bool :=
  send_email config to_emails subject None (Some html_content) attachments
    None None None.

End Send.

(** The file parts of a message, and its text parts. *)
Definition file_parts (message : MIMEMultipart) : list (string * string) :=
  omap (fun p => match p with MIMEFile n c => Some (n, c) | _ => None end)
       (payload message).

Definition text_parts (message : MIMEMultipart) : list (string * string) :=
  omap (fun p => match p with MIMEText b t => Some (b, t) | _ => None end)
       (payload message).

(** The attachments that are on disk and can be read. *)
Definition attachable (path_name : string -> string)
    (read_error : string -> option exn) (w : world) (paths : list string)
  : list (string * string) :=
  omap (fun p =>
          match files w !! p, read_error p with
          | Some content, None => Some (path_name p, content)
          | _, _ => None
          end) paths.

(** The addresses an optional argument stands for. *)
Definition addresses_of (a : option addresses) : list string :=
  match a with Some x => to_list x | None => [] end.

(** The exception that stops the message from being built, if any: the one
    of the headers and text parts, else the one of the first attachment
    whose existence test raises. *)
Fixpoint first_stat_error (stat_error : string -> option exn)
    (paths : list string) : option exn :=
  match paths with
  | [] => None
  | p :: paths' =>
      match stat_error p with
      | Some e => Some e
      | None => first_stat_error stat_error paths'
      end
  end.

Definition build_error (env : environment) (stat_error : string -> option exn)
    (attachments : option (list string)) : option exn :=
  match mime_error env with
  | Some e => Some e
  | None => first_stat_error stat_error (default [] attachments)
  end.

(** Whether the session for a message and its recipients went through. *)
Definition delivered (session_error : MIMEMultipart -> list string -> option exn)
    (message : MIMEMultipart) (recipients : list string) : bool :=
  match session_error message recipients with
  | None => true
  | Some _ => false
  end.

(** A configuration, and the attachment [locked], whose existence test is
    refused. *)
Definition sample_config : SMTPConfig :=
  mkSMTPConfig "smtp.gmail.com" 587 "me@example.com" "secret" None true.

Definition locked_stat (p : string) : option exn :=
  if String.eqb p "locked" then Some (OSError (Some 13%Z) "Permission denied")
  else None.

End Gmail.

(** ** The command lines: [create_html.py] and [railway_generate_report.py] *)

Module Scripts.
Import Delivery.

Definition default_address : string :=
  "0x22633134dc34f6c9a3bff51a0926c9d209714e26".

(** [arg in ["--send-email", "-e"]] *)
Definition is_send_flag (arg : string) : bool :=
  String.eqb arg "--send-email" || String.eqb arg "-e".

(** Lines 645-649: the first argument, unless it is an option. *)
Definition address_of (argv : list string) : string :=
  match argv with
  | _ :: a :: _ => if negb (String.prefix "-" a) then a else default_address
  | _ => default_address
  end.

(** ["--send-email" in sys.argv or "-e" in sys.argv] *)
Definition send_requested (argv : list string) : bool :=
  existsb (String.eqb "--send-email") argv || existsb (String.eqb "-e") argv.

(** Lines 667-670: the argument after the first flag that has one. *)
Fixpoint recipient_of (argv : list string) : option string :=
  match argv with
  | [] => None
  | arg :: rest =>
      if is_send_flag arg
      then match rest with
           | next :: _ => Some next
           | [] => recipient_of rest
           end
      else recipient_of rest
  end.

Section Main.

Variable rt : runtime.
Variable env : environment.

(** The script of [create_html.py]; the value is the exit status. *)
Definition main (argv : list string) : M Z :=
  let address := address_of argv in
  let send_email := send_requested argv in
  let recipient := if send_email then recipient_of argv else None in
  if send_email
     && match recipient with
        | Some r => negb (nonempty r) || String.prefix "-" r
        | None => true
        end
  then ret 1%Z
  else
    try_except
      (create_and_send_report rt env address recipient send_email
         "polymarket_positions.html" ;;;
       ret 0%Z)
      (fun e => Some (ret 0%Z)).

(** The script of [railway_generate_report.py]. *)
Definition railway_main (argv : list string) : M Z :=
  let address := getenv_default env "POLYMARKET_ADDRESS" default_address in
  let address := match argv with _ :: a :: _ => a | _ => address end in
  try_except
    (df <- get_user_positions env address ;;
     let df :=
       if negb (has_column df "title") && has_column df "marketQuestion"
       then set_column df "title" (df_col df "marketQuestion")
       else df in
     write_report rt env df "polymarket_positions.html" ;;;
     ret 0%Z)
    (fun e => Some (ret 1%Z)).

End Main.

End Scripts.

(** *** Sample environments *)

Module DeliverySamples.
Import Delivery DeliverySpec.

(** No network: the positions cannot be fetched. *)
Definition offline : environment :=
  {| getenv := getenv refusing;
     py_int := py_int refusing;
     int_error := int_error refusing;
     http_get_json := fun _ => Raise (OSError (Some 101%Z) "Network is unreachable");
     write_error := fun _ => None;
     write_residue := fun _ => None;
     reread_error := fun _ => None;
     mime_error := None;
     smtp_error := fun _ => None;
     template := template refusing |}.

(** The positions are fetched, but the disk cannot be written. *)
Definition read_only : environment :=
  {| getenv := getenv refusing;
     py_int := py_int refusing;
     int_error := int_error refusing;
     http_get_json := http_get_json refusing;
     write_error := fun _ => Some (OSError (Some 30%Z) "Read-only file system");
     write_residue := fun _ => None;
     reread_error := fun _ => None;
     mime_error := None;
     smtp_error := fun _ => None;
     template := template refusing |}.

(** The positions are fetched and the report file is opened, but the disk
    fills up while it is written: the file is left empty. *)
Definition disk_full : environment :=
  {| getenv := getenv refusing;
     py_int := py_int refusing;
     int_error := int_error refusing;
     http_get_json := http_get_json refusing;
     write_error := fun _ => Some (OSError (Some 28%Z) "No space left on device");
     write_residue := fun _ => Some EmptyString;
     reread_error := fun _ => None;
     mime_error := None;
     smtp_error := fun _ => None;
     template := template refusing |}.

End DeliverySamples.

(** * Properties *)

(** ** Comparisons and the first parsed value *)

Lemma Qgtb_true a b : Qgtb a b = true <-> (b < a)%Q.
Proof.
  unfold Qgtb. rewrite negb_true_iff. split.
  - intros H. apply Qnot_le_lt. intros Hle. apply Qle_bool_iff in Hle. congruence.
  - intros H. destruct (Qle_bool a b) eqn:E; [|done].
    apply Qle_bool_iff in E. exfalso. eapply Qlt_not_le; eauto.
Qed.

Lemma Qgtb_false a b : Qgtb a b = false <-> (a <= b)%Q.
Proof.
  unfold Qgtb. rewrite negb_false_iff. apply Qle_bool_iff.
Qed.

Lemma Qle_bool_false a b : Qle_bool a b = false <-> (b < a)%Q.
Proof.
  rewrite <- Qgtb_true. unfold Qgtb. by rewrite negb_true_iff.
Qed.

Lemma first_parsed_dropna col : first_parsed col = dropna col !! 0%nat.
Proof.
  induction col as [|[x|] col IH]; simpl; auto.
Qed.

Lemma notna_any_first col : notna_any col = true <-> is_Some (first_parsed col).
Proof.
  induction col as [|[x|] col IH]; simpl.
  - split; [done | intros [? ?]; done].
  - split; eauto.
  - exact IH.
Qed.

Lemma notna_any_false col : notna_any col = false <-> first_parsed col = None.
Proof.
  rewrite <- not_true_iff_false, notna_any_first, eq_None_not_Some. done.
Qed.

Lemma first_parsed_nan n : first_parsed (nan_series n) = None.
Proof. induction n; simpl; auto. Qed.

Lemma first_parsed_None col : first_parsed col = None -> dropna col = [].
Proof.
  induction col as [|[x|] col IH]; simpl; intros H; auto; done.
Qed.

Lemma length_to_numeric rt col : length (to_numeric rt col) = length col.
Proof. unfold to_numeric. by rewrite length_fmap. Qed.

Lemma length_df_col df c : length (df_col df c) = len df.
Proof. unfold df_col, len. by rewrite length_fmap. Qed.

Lemma length_parsed_column rt df c : length (parsed_column rt df c) = len df.
Proof.
  unfold parsed_column, column_of, nan_series.
  destruct (has_column df c).
  - by rewrite length_to_numeric, length_df_col.
  - by rewrite length_replicate.
Qed.

Lemma to_pct01_refines rt df c :
  _to_pct01 rt df c = normalizePercent (parsed_column rt df c).
Proof.
  unfold _to_pct01, normalizePercent, parsed_column, column_of.
  destruct (has_column df c) eqn:Hc; simpl.
  - set (col := to_numeric rt (df_col df c)).
    rewrite <- first_parsed_dropna.
    destruct (notna_any col) eqn:Hany.
    + apply notna_any_first in Hany as [s Hs]. rewrite Hs.
      destruct (Qlt_le_dec 1.5 (Qabs s)) as [Hlt|Hle].
      * apply Qgtb_true in Hlt. by rewrite Hlt.
      * apply Qgtb_false in Hle. by rewrite Hle.
    + apply notna_any_false in Hany. by rewrite Hany.
  - by rewrite first_parsed_nan.
Qed.

Lemma normalizePercent_length parsed :
  length (normalizePercent parsed) = length parsed.
Proof.
  unfold normalizePercent.
  destruct (first_parsed parsed); [destruct (Qlt_le_dec _ _)|]; by rewrite ?length_fmap.
Qed.

Lemma normalizePercent_absent parsed i :
  normalizePercent parsed !! i = Some None <-> parsed !! i = Some None.
Proof.
  unfold normalizePercent.
  destruct (first_parsed parsed); [destruct (Qlt_le_dec _ _)|]; try done.
  rewrite list_lookup_fmap. destruct (parsed !! i) as [[x|]|]; simpl; split; done.
Qed.



Example to_pct01_percent_scale rt :
  series_eq (_to_pct01 rt (frame_of_column "percentPnl" [Num 80; Num 60; Num 90]) "percentPnl")
            [Some 0.8; Some 0.6; Some 0.9]%Q.
Proof. vm_compute. repeat constructor. Qed.

Example to_pct01_fraction_scale rt :
  _to_pct01 rt (frame_of_column "percentPnl" [Num 0.8; Num 0.6; Num 0.9]) "percentPnl"
  = [Some 0.8; Some 0.6; Some 0.9]%Q.
Proof. vm_compute. reflexivity. Qed.

(** ** The median and the cents normalizer *)











Lemma median_nil : median [] = None.
Proof. reflexivity. Qed.

(** *** The median by ranks *)




Lemma count_le_length p l : (count p l <= length l)%nat.
Proof. induction l as [|y l IH]; simpl; [done|]. destruct (p y); lia. Qed.












Lemma to_cents_refines rt df c :
  _to_cents rt df c = normalizeCents (parsed_column rt df c).
Proof.
  unfold _to_cents, normalizeCents, parsed_column, column_of.
  destruct (has_column df c) eqn:Hc; simpl.
  - set (col := to_numeric rt (df_col df c)).
    destruct (notna_any col) eqn:Hany.
    + destruct (median (dropna col)) as [m|]; [|done].
      destruct (Qlt_le_dec 1.5 m) as [Hlt|Hle].
      * apply Qle_bool_false in Hlt. by rewrite Hlt.
      * apply Qle_bool_iff in Hle. by rewrite Hle.
    + apply notna_any_false, first_parsed_None in Hany. by rewrite Hany.
  - replace (dropna (nan_series (len df))) with (@nil Q); [done|].
    symmetry. apply first_parsed_None, first_parsed_nan.
Qed.






(** ** Frames and their rows *)

Lemma has_column_true df c : has_column df c = true <-> c ∈ columns df.
Proof. unfold has_column. by rewrite bool_decide_eq_true. Qed.

Lemma has_column_false df c : has_column df c = false <-> c ∉ columns df.
Proof. unfold has_column. by rewrite bool_decide_eq_false. Qed.

Lemma columns_DataFrame_of data c :
  c ∈ columns (DataFrame_of data) <-> exists r, r ∈ data /\ has_field c r.
Proof.
  unfold DataFrame_of, has_field; simpl. rewrite elem_of_union_list. split.
  - intros (X & HX & Hc). apply list_elem_of_fmap in HX as (r & -> & Hr).
    exists r. split; [done|]. by apply elem_of_dom.
  - intros (r & Hr & Hc). exists (dom r). split.
    + apply list_elem_of_fmap. eauto.
    + by apply elem_of_dom.
Qed.

Lemma no_column_get data c r :
  c ∉ columns (DataFrame_of data) -> r ∈ data -> get r c = NaN.
Proof.
  intros Hc Hr. unfold get. destruct (r !! c) eqn:E; [|done].
  exfalso. apply Hc. apply columns_DataFrame_of. exists r. split; [done|].
  unfold has_field. by rewrite E.
Qed.

Lemma to_numeric1_cell_of_float rt x : to_numeric1 rt (cell_of_float x) = x.
Proof. by destruct x. Qed.

Lemma float_of_cell_of_float x : float_of_cell (cell_of_float x) = x.
Proof. by destruct x. Qed.

Lemma get_insert_eq r c v : get (<[c := v]> r) c = v.
Proof. unfold get. by rewrite lookup_insert_eq. Qed.

Lemma get_insert_ne r c c' v : c <> c' -> get (<[c := v]> r) c' = get r c'.
Proof. intros H. unfold get. by rewrite lookup_insert_ne. Qed.

Lemma float_at_coerce rt r : float_at value_col (coerce_value rt r) = currentValue rt r.
Proof.
  unfold float_at, coerce_value. by rewrite get_insert_eq, float_of_cell_of_float.
Qed.

Lemma currentValue_coerce rt r : currentValue rt (coerce_value rt r) = currentValue rt r.
Proof.
  unfold currentValue at 1, coerce_value.
  by rewrite get_insert_eq, to_numeric1_cell_of_float.
Qed.

Lemma cashPnl_coerce rt r : cashPnl rt (coerce_value rt r) = cashPnl rt r.
Proof.
  unfold cashPnl, coerce_value. by rewrite get_insert_ne.
Qed.

(** Line 78 rewrites every row in place. *)
Lemma rows_coerced rt df :
  rows (set_column df value_col
          (cell_of_float <$> to_numeric rt (df_col df value_col)))
  = coerce_value rt <$> rows df.
Proof.
  unfold set_column, to_numeric, df_col; simpl.
  induction (rows df) as [|r l IH]; [done|].
  rewrite !fmap_cons. simpl. f_equal. exact IH.
Qed.

(** *** The descending sort *)

Section Sort.
Context (key : gmap string cell -> option Q).


Lemma desc_leb_total a b : desc_leb a b = false -> desc_leb b a = true.
Proof.
  destruct a as [x|], b as [y|]; simpl; try done.
  intros H. apply Qle_bool_false in H. apply Qle_bool_iff. by apply Qlt_le_weak.
Qed.

Lemma desc_leb_trans a b c :
  desc_leb a b = true -> desc_leb b c = true -> desc_leb a c = true.
Proof.
  destruct a as [x|], b as [y|], c as [z|]; simpl; try done.
  rewrite !Qle_bool_iff. intros H1 H2. by apply Qle_trans with y.
Qed.

#[local] Instance desc_trans : Transitive (desc key).
Proof. intros a b c. apply desc_leb_trans. Qed.

Lemma insert_desc_perm r l : insert_desc key r l ≡ₚ r :: l.
Proof.
  induction l as [|y l IH]; simpl; [done|].
  destruct (desc_leb _ _); [done|].
  rewrite IH. apply Permutation_swap.
Qed.

Lemma sort_desc_perm l : foldr (insert_desc key) [] l ≡ₚ l.
Proof.
  induction l as [|x l IH]; simpl; [done|].
  by rewrite insert_desc_perm, IH.
Qed.

Lemma insert_desc_sorted r l :
  Sorted (desc key) l -> Sorted (desc key) (insert_desc key r l).
Proof.
  induction 1 as [|y l Hs IH Hhd]; simpl.
  - repeat constructor.
  - destruct (desc_leb (key r) (key y)) eqn:E.
    + repeat constructor; auto.
    + apply desc_leb_total in E. constructor; [exact IH|].
      destruct Hhd as [|z l' Hyz]; simpl.
      * by constructor.
      * destruct (desc_leb (key r) (key z)); by constructor.
Qed.

Lemma sort_desc_sorted l : StronglySorted (desc key) (foldr (insert_desc key) [] l).
Proof.
  apply Sorted_StronglySorted; [apply desc_trans|].
  induction l as [|x l IH]; simpl; [constructor|]. by apply insert_desc_sorted.
Qed.

(** In a sorted list an earlier row may stand before every later one. *)
Lemma StronglySorted_lookup (l : list (gmap string cell)) i j a b :
  StronglySorted (desc key) l -> (i < j)%nat ->
  l !! i = Some a -> l !! j = Some b -> desc key a b.
Proof.
  intros Hs. revert i j. induction Hs as [|x l Hs IH Hall]; intros i j Hij Ha Hb.
  - done.
  - destruct i as [|i], j as [|j]; simpl in *; try lia.
    + injection Ha as <-. rewrite Forall_forall in Hall.
      apply Hall. eapply list_elem_of_lookup_2; eauto.
    + eapply (IH i j); eauto. lia.
Qed.

End Sort.

(** *** What [sort_and_filter] leaves *)

Lemma sort_and_filter_rows_has rt df :
  has_column df value_col = true ->
  rows (sort_and_filter rt df)
  = foldr (insert_desc (float_at value_col)) []
      (filter (fun r => gt0 (float_at value_col r) = true)
         (coerce_value rt <$> rows df)).
Proof.
  intros H. unfold sort_and_filter. rewrite H.
  unfold sort_values_desc, select_gt0. cbn [rows]. by rewrite rows_coerced.
Qed.

Lemma sort_and_filter_rows_hasnot rt df :
  has_column df value_col = false -> sort_and_filter rt df = df.
Proof. intros H. unfold sort_and_filter. by rewrite H. Qed.

Lemma filter_coerced rt (l : list (gmap string cell)) :
  filter (fun r => gt0 (float_at value_col r) = true) (coerce_value rt <$> l)
  = coerce_value rt <$> filter (keeps rt) l.
Proof.
  induction l as [|r l IH]; [done|].
  rewrite fmap_cons, !filter_cons. unfold keeps at 1.
  rewrite float_at_coerce.
  destruct (decide (gt0 (currentValue rt r) = true)); simpl; by rewrite IH.
Qed.

Lemma sort_and_filter_perm rt df :
  has_column df value_col = true ->
  rows (sort_and_filter rt df) ≡ₚ coerce_value rt <$> filter (keeps rt) (rows df).
Proof.
  intros H. rewrite sort_and_filter_rows_has by done.
  by rewrite sort_desc_perm, filter_coerced.
Qed.

Lemma gt0_true x : gt0 x = true <-> exists q, x = Some q /\ (0 < q)%Q.
Proof.
  destruct x as [q|]; simpl.
  - rewrite Qgtb_true. split; [eauto|]. by intros (? & [= <-] & ?).
  - split; [done|]. by intros (? & ? & ?).
Qed.

Lemma gt0_false x :
  gt0 x = false <-> x = None \/ exists q, x = Some q /\ (q <= 0)%Q.
Proof.
  destruct x as [q|]; simpl.
  - rewrite Qgtb_false. split; [eauto|]. intros [|(? & [= <-] & ?)]; done.
  - split; [auto|done].
Qed.

Lemma well_formed_DataFrame_of data : well_formed (DataFrame_of data).
Proof.
  intros r c Hr Hc. apply columns_DataFrame_of. by exists r.
Qed.

Lemma sort_and_filter_perm_surviving rt df :
  rows (sort_and_filter rt df) ≡ₚ surviving rt df.
Proof.
  unfold surviving. destruct (has_column df value_col) eqn:H.
  - by apply sort_and_filter_perm.
  - by rewrite sort_and_filter_rows_hasnot.
Qed.

Lemma columns_sort_and_filter rt df c :
  c ∈ columns (sort_and_filter rt df) <-> c ∈ columns df.
Proof.
  unfold sort_and_filter. destruct (has_column df value_col) eqn:H; [|done].
  apply has_column_true in H. simpl.
  rewrite elem_of_union, elem_of_singleton. split; [by intros [->|]|auto].
Qed.

Lemma has_column_sort_and_filter rt df c :
  has_column (sort_and_filter rt df) c = has_column df c.
Proof.
  unfold has_column. apply bool_decide_ext, columns_sort_and_filter.
Qed.

Lemma has_field_coerce rt r c :
  has_field c (coerce_value rt r) -> c = value_col \/ has_field c r.
Proof.
  unfold has_field, coerce_value. destruct (decide (value_col = c)) as [->|Hne]; [auto|].
  rewrite lookup_insert_ne by done. auto.
Qed.

Lemma well_formed_sort_and_filter rt df :
  well_formed df -> well_formed (sort_and_filter rt df).
Proof.
  intros Hwf r c Hr Hc. apply columns_sort_and_filter.
  rewrite sort_and_filter_perm_surviving in Hr. unfold surviving in Hr.
  destruct (has_column df value_col) eqn:H.
  - apply list_elem_of_fmap in Hr as (r0 & -> & Hr0).
    apply list_elem_of_filter in Hr0 as [_ Hr0].
    apply has_field_coerce in Hc as [->|Hc]; [by apply has_column_true|].
    eapply Hwf; eauto.
  - eapply Hwf; eauto.
Qed.

(** In a well-formed frame a column that is missing reads as absent in
    every row, so the guarded reads are plain reads. *)
Lemma guarded_read rt df c :
  well_formed df ->
  (if has_column df c then to_numeric rt (df_col df c) else nan_series (len df))
  = (fun r => to_numeric1 rt (get r c)) <$> rows df.
Proof.
  intros Hwf. destruct (has_column df c) eqn:H.
  - unfold to_numeric, df_col. by rewrite <- list_fmap_compose.
  - apply has_column_false in H. unfold nan_series, len.
    assert (forall r, r ∈ rows df -> to_numeric1 rt (get r c) = None) as Hall.
    { intros r Hr. unfold get. destruct (r !! c) eqn:E; [|done].
      exfalso. apply H. apply (Hwf r c Hr). unfold has_field. by rewrite E. }
    induction (rows df) as [|r l IH]; [done|].
    rewrite fmap_cons. simpl. rewrite Hall by apply list_elem_of_here.
    f_equal. apply IH. intros r' Hr'. apply Hall. by apply list_elem_of_further.
Qed.

Lemma value_rows rt df :
  well_formed df -> value rt df = currentValue rt <$> rows df.
Proof. apply guarded_read. Qed.

Lemma cash_rows rt df :
  well_formed df -> cash rt df = cashPnl rt <$> rows df.
Proof. apply guarded_read. Qed.

Lemma series_sum_fmap f (l : list (gmap string cell)) :
  series_sum (f <$> l) = sum_over f l.
Proof.
  induction l as [|r l IH]; [done|]. rewrite fmap_cons. simpl. by rewrite IH.
Qed.

Lemma sum_over_perm f l1 l2 : l1 ≡ₚ l2 -> Qeq (sum_over f l1) (sum_over f l2).
Proof.
  induction 1 as [|x l1 l2 _ IH|x y l|l1 l2 l3 _ IH1 _ IH2]; simpl.
  - reflexivity.
  - by rewrite IH.
  - ring.
  - by rewrite IH1.
Qed.

Lemma sum_over_coerce_value rt l :
  sum_over (currentValue rt) (coerce_value rt <$> l) = sum_over (currentValue rt) l.
Proof.
  induction l as [|r l IH]; [done|].
  rewrite fmap_cons. simpl. by rewrite currentValue_coerce, IH.
Qed.

Lemma sum_over_coerce_cash rt l :
  sum_over (cashPnl rt) (coerce_value rt <$> l) = sum_over (cashPnl rt) l.
Proof.
  induction l as [|r l IH]; [done|].
  rewrite fmap_cons. simpl. by rewrite cashPnl_coerce, IH.
Qed.

Lemma sum_over_absent f l :
  (forall r, r ∈ l -> f r = None) -> sum_over f l = 0%Q.
Proof.
  induction l as [|r l IH]; intros H; [done|]. simpl.
  rewrite H by apply list_elem_of_here.
  rewrite IH; [done|]. intros r' Hr'. apply H. by apply list_elem_of_further.
Qed.

(** The value Series of the report holds, in a frame that has the column,
    the floats the sort compared. *)
Lemma value_sorted_frame rt df :
  has_column df value_col = true ->
  value rt (sort_and_filter rt df)
  = float_at value_col <$> rows (sort_and_filter rt df).
Proof.
  intros H. unfold value. rewrite has_column_sort_and_filter, H.
  unfold to_numeric, df_col. rewrite <- list_fmap_compose.
  apply list_fmap_ext. intros k r Hr. simpl.
  apply list_elem_of_lookup_2 in Hr.
  rewrite sort_and_filter_perm in Hr by done.
  apply list_elem_of_fmap in Hr as (r0 & -> & _).
  rewrite float_at_coerce. apply currentValue_coerce.
Qed.

Lemma value_descending rt df i j x y :
  (i < j)%nat ->
  value rt (sort_and_filter rt df) !! i = Some (Some x) ->
  value rt (sort_and_filter rt df) !! j = Some (Some y) ->
  (y <= x)%Q.
Proof.
  intros Hij Hi Hj. destruct (has_column df value_col) eqn:H.
  - rewrite value_sorted_frame in Hi, Hj by done.
    rewrite list_lookup_fmap in Hi, Hj.
    destruct (rows (sort_and_filter rt df) !! i) as [a|] eqn:Ea; [|done].
    destruct (rows (sort_and_filter rt df) !! j) as [b|] eqn:Eb; [|done].
    simpl in Hi, Hj. injection Hi as Hi. injection Hj as Hj.
    rewrite sort_and_filter_rows_has in Ea, Eb by done.
    pose proof (StronglySorted_lookup (float_at value_col) _ i j a b
                  (sort_desc_sorted _ _) Hij Ea Eb) as Hd.
    unfold desc in Hd. rewrite Hi, Hj in Hd. simpl in Hd.
    by apply Qle_bool_iff.
  - exfalso. unfold value in Hi. rewrite has_column_sort_and_filter, H in Hi.
    unfold nan_series in Hi. apply lookup_replicate in Hi as [? _]. done.
Qed.

(** C3, as amended.  In a frame that has a [currentValue] column, the rows
    of the report are, up to their order, the records whose current value
    parses to a positive number, each with that number in place of the raw
    entry: a record with a positive value is among them, and a record whose
    value is absent, is a text that does not parse, or is not positive is
    not. *)
Theorem filter_spec (rt : runtime) (df : DataFrame) :
  has_column df value_col = true ->
  let out := rows (sort_and_filter rt df) in
  out ≡ₚ coerce_value rt <$> filter (keeps rt) (rows df)
  /\ (forall r', r' ∈ out -> exists q, currentValue rt r' = Some q /\ (0 < q)%Q)
  /\ (forall r q, r ∈ rows df -> currentValue rt r = Some q -> (0 < q)%Q ->
        coerce_value rt r ∈ out)
  /\ (forall r, r ∈ rows df -> r !! value_col = None -> coerce_value rt r ∉ out)
  /\ (forall r s, r ∈ rows df -> r !! value_col = Some (Str s) ->
        parse_float rt s = None -> coerce_value rt r ∉ out)
  /\ (forall r q, r ∈ rows df -> currentValue rt r = Some q -> (q <= 0)%Q ->
        coerce_value rt r ∉ out).
Proof.
  intros Hcol out. subst out.
  pose proof (sort_and_filter_perm rt df Hcol) as Hperm.
  assert (forall r', r' ∈ rows (sort_and_filter rt df) ->
            exists q, currentValue rt r' = Some q /\ (0 < q)%Q) as Hpos.
  { intros r' Hr'. rewrite Hperm in Hr'.
    apply list_elem_of_fmap in Hr' as (r & -> & Hr).
    apply list_elem_of_filter in Hr as [Hk _].
    rewrite currentValue_coerce. by apply gt0_true. }
  assert (forall r, currentValue rt r = None \/
                    (exists q, currentValue rt r = Some q /\ (q <= 0)%Q) ->
            coerce_value rt r ∉ rows (sort_and_filter rt df)) as Hout.
  { intros r Hbad Hin. apply Hpos in Hin as (q & Hq & Hq0).
    rewrite currentValue_coerce in Hq.
    destruct Hbad as [Hn|(q' & Hq' & Hle)]; [congruence|].
    rewrite Hq in Hq'. injection Hq' as <-. by apply (Qlt_not_le 0 q). }
  split; [done|]. split; [done|]. split; [|split; [|split]].
  - intros r q Hr Hq Hq0. rewrite Hperm. apply list_elem_of_fmap.
    exists r. split; [done|]. apply list_elem_of_filter. split; [|done].
    unfold keeps. apply gt0_true. eauto.
  - intros r Hr Hn. apply Hout. left. unfold currentValue, get. by rewrite Hn.
  - intros r s Hr Hs Hp. apply Hout. left. unfold currentValue, get.
    by rewrite Hs.
  - intros r q Hr Hq Hle. apply Hout. right. eauto.
Qed.

Lemma filter_spec_witness :
  has_column (DataFrame_of filter_sample) value_col = true
  /\ rows (sort_and_filter SampleRuntime.py (DataFrame_of filter_sample))
     ≡ₚ coerce_value SampleRuntime.py
          <$> filter (keeps SampleRuntime.py) (rows (DataFrame_of filter_sample))
  /\ rows (sort_and_filter SampleRuntime.py (DataFrame_of filter_sample))
     = [ {[ "title" := Str "held"; "currentValue" := Num 150.25 ]} ].
Proof.
  assert (has_column (DataFrame_of filter_sample) value_col = true) as Hcol
    by (vm_compute; reflexivity).
  split; [exact Hcol|]. split.
  - exact (proj1 (filter_spec SampleRuntime.py (DataFrame_of filter_sample) Hcol)).
  - vm_compute. reflexivity.
Defined.

(** C3 as stated fails: when no record carries a current value the frame
    has no such column, nothing is filtered, and a record without a current
    value is a row of the report. *)
Lemma filter_counterexample :
  rows (sort_and_filter SampleRuntime.py (DataFrame_of [ {[ "title" := Str "A" ]} ]))
  = [ {[ "title" := Str "A" ]} ]
  /\ currentValue SampleRuntime.py {[ "title" := Str "A" ]} = None.
Proof. split; vm_compute; reflexivity. Qed.

(** C4.  The rows of the report are the surviving records, in descending
    order of current value: of two rows the earlier one never has the smaller
    value.  Values 10, 500, 1 come out as 500, 10, 1. *)
Theorem sort_spec (rt : runtime) (df : DataFrame) :
  let out := sort_and_filter rt df in
  (forall i j x y, (i < j)%nat ->
     value rt out !! i = Some (Some x) -> value rt out !! j = Some (Some y) ->
     (y <= x)%Q)
  /\ rows out ≡ₚ surviving rt df
  /\ value rt (sort_and_filter rt sort_sample) = [Some 500; Some 10; Some 1]%Q.
Proof.
  intros out. subst out. split; [|split].
  - intros i j x y. apply value_descending.
  - apply sort_and_filter_perm_surviving.
  - vm_compute. reflexivity.
Qed.

Lemma sort_spec_witness :
  (0 < 2)%nat
  /\ value SampleRuntime.py (sort_and_filter SampleRuntime.py sort_sample) !! 0%nat
     = Some (Some 500%Q)
  /\ value SampleRuntime.py (sort_and_filter SampleRuntime.py sort_sample) !! 2%nat
     = Some (Some 1%Q)
  /\ (1 <= 500)%Q.
Proof.
  assert (0 < 2)%nat as Hij by lia.
  assert (value SampleRuntime.py (sort_and_filter SampleRuntime.py sort_sample)
            !! 0%nat = Some (Some 500%Q)) as H0 by (vm_compute; reflexivity).
  assert (value SampleRuntime.py (sort_and_filter SampleRuntime.py sort_sample)
            !! 2%nat = Some (Some 1%Q)) as H2 by (vm_compute; reflexivity).
  split; [exact Hij|]. split; [exact H0|]. split; [exact H2|].
  exact (proj1 (sort_spec SampleRuntime.py sort_sample) 0%nat 2%nat 500%Q 1%Q
           Hij H0 H2).
Defined.

(** ** The summary *)

Lemma length_display rt df : length (display rt df) = len df.
Proof. unfold display. by rewrite length_fmap, length_seq. Qed.

Lemma report_sums rt data :
  let out := sort_and_filter rt (DataFrame_of data) in
  let rep := df_to_pretty_html_marketstyle rt (DataFrame_of data) in
  total_positions rep = length (rows out)
  /\ total_value rep = sum_over (currentValue rt) (rows out)
  /\ total_pnl rep = sum_over (cashPnl rt) (rows out).
Proof.
  intros out rep. subst out rep.
  unfold df_to_pretty_html_marketstyle, report_of; simpl.
  pose proof (well_formed_sort_and_filter rt _ (well_formed_DataFrame_of data)) as Hwf.
  rewrite value_rows, cash_rows, !series_sum_fmap by done. done.
Qed.

Lemma surviving_kept_records rt data :
  length (surviving rt (DataFrame_of data)) = length (kept_records rt data)
  /\ sum_over (currentValue rt) (surviving rt (DataFrame_of data))
     = sum_over (currentValue rt) (kept_records rt data)
  /\ sum_over (cashPnl rt) (surviving rt (DataFrame_of data))
     = sum_over (cashPnl rt) (kept_records rt data).
Proof.
  unfold surviving, kept_records.
  change (rows (DataFrame_of data)) with data.
  destruct (has_column (DataFrame_of data) value_col); [|done].
  by rewrite length_fmap, sum_over_coerce_value, sum_over_coerce_cash.
Qed.

(** C6.  The summary of the report: the count is the number of surviving
    records, the total value the sum of their current values and the total
    P&L the sum of their cash P&L, an absent value counting as 0 in the
    sums.  Values 100 and 250 with P&L 10 and -5 give 2, 350 and 5; when no
    record survives the summary is 0, 0, 0 and the table body is empty. *)
Theorem summary_spec (rt : runtime) (data : list (gmap string cell)) :
  let kept := kept_records rt data in
  let rep := df_to_pretty_html_marketstyle rt (DataFrame_of data) in
  total_positions rep = length kept
  /\ Qeq (total_value rep) (sum_over (currentValue rt) kept)
  /\ Qeq (total_pnl rep) (sum_over (cashPnl rt) kept)
  /\ (kept = [] ->
        total_positions rep = 0%nat /\ total_value rep = 0%Q
        /\ total_pnl rep = 0%Q /\ tbody rep = [])
  /\ (let two := df_to_pretty_html_marketstyle rt (DataFrame_of summary_sample) in
      total_positions two = 2%nat /\ Qeq (total_value two) 350
      /\ Qeq (total_pnl two) 5).
Proof.
  intros kept rep. subst kept rep.
  destruct (report_sums rt data) as (Hn & Hv & Hp).
  destruct (surviving_kept_records rt data) as (Kn & Kv & Kp).
  pose proof (sort_and_filter_perm_surviving rt (DataFrame_of data)) as Hperm.
  split; [by rewrite Hn, Hperm|].
  split; [rewrite Hv, <- Kv; by apply sum_over_perm|].
  split; [rewrite Hp, <- Kp; by apply sum_over_perm|].
  split.
  - intros Hnil. rewrite Hnil in Kn. simpl in Kn.
    apply nil_length_inv in Kn. rewrite Kn in Hperm.
    apply Permutation_nil_r in Hperm.
    rewrite Hn, Hv, Hp, Hperm. repeat split; try done.
    unfold df_to_pretty_html_marketstyle, report_of; simpl.
    pose proof (length_display rt (sort_and_filter rt (DataFrame_of data))) as Hl.
    unfold len in Hl. rewrite Hperm in Hl.
    destruct (display rt _); [done|simpl in Hl; lia].
  - vm_compute. repeat split; done.
Qed.

(** A single position of value 0: no record is kept. *)
Lemma summary_spec_witness :
  kept_records SampleRuntime.py
    [ {[ "title" := Str "zero"; "currentValue" := Num 0 ]} ] = []
  /\ total_positions
       (df_to_pretty_html_marketstyle SampleRuntime.py
          (DataFrame_of [ {[ "title" := Str "zero"; "currentValue" := Num 0 ]} ]))
     = 0%nat
  /\ tbody
       (df_to_pretty_html_marketstyle SampleRuntime.py
          (DataFrame_of [ {[ "title" := Str "zero"; "currentValue" := Num 0 ]} ]))
     = [].
Proof.
  assert (kept_records SampleRuntime.py
            [ {[ "title" := Str "zero"; "currentValue" := Num 0 ]} ]
          = []) as Hnone by (vm_compute; reflexivity).
  split; [exact Hnone|].
  destruct (summary_spec SampleRuntime.py
              [ {[ "title" := Str "zero"; "currentValue" := Num 0 ]} ])
    as (_ & _ & _ & Hempty & _).
  destruct (Hempty Hnone) as (Hn & _ & _ & Hbody).
  split; [exact Hn | exact Hbody].
Defined.

(** C10, as amended.  When no record carries a current value, nothing is
    filtered and nothing is sorted: the rows of the report are the records in
    their original order, the count is their number and the total value is
    0.  The total P&L is the sum of the cash P&L of all records; it is 0 when
    no record has a cash P&L that parses. *)
Theorem no_value_column_spec (rt : runtime) (data : list (gmap string cell)) :
  (forall r, r ∈ data -> r !! value_col = None) ->
  let rep := df_to_pretty_html_marketstyle rt (DataFrame_of data) in
  rows (sort_and_filter rt (DataFrame_of data)) = data
  /\ total_positions rep = length data
  /\ total_value rep = 0%Q
  /\ total_pnl rep = sum_over (cashPnl rt) data
  /\ ((forall r, r ∈ data -> cashPnl rt r = None) -> total_pnl rep = 0%Q).
Proof.
  intros Hno rep. subst rep.
  assert (has_column (DataFrame_of data) value_col = false) as Hcol.
  { apply has_column_false. intros Hc. apply columns_DataFrame_of in Hc as (r & Hr & Hf).
    unfold has_field in Hf. rewrite (Hno r Hr) in Hf. by destruct Hf. }
  destruct (report_sums rt data) as (Hn & Hv & Hp).
  rewrite sort_and_filter_rows_hasnot in Hn, Hv, Hp |- * by done.
  change (rows (DataFrame_of data)) with data in *.
  split; [done|]. split; [done|]. split; [|split; [done|]].
  - rewrite Hv. apply sum_over_absent. intros r Hr.
    unfold currentValue, get. by rewrite (Hno r Hr).
  - intros Hc. rewrite Hp. by apply sum_over_absent.
Qed.

Lemma no_value_column_spec_witness :
  (forall r, r ∈ no_value_sample -> r !! value_col = None)
  /\ rows (sort_and_filter SampleRuntime.py (DataFrame_of no_value_sample)) = no_value_sample
  /\ total_value (df_to_pretty_html_marketstyle SampleRuntime.py (DataFrame_of no_value_sample)) = 0%Q.
Proof.
  assert (forall r, r ∈ no_value_sample -> r !! value_col = None) as H.
  { intros r Hr. unfold no_value_sample in Hr.
    repeat (apply elem_of_cons in Hr as [->|Hr]; [vm_compute; reflexivity|]).
    by apply elem_of_nil in Hr. }
  split; [exact H|].
  destruct (no_value_column_spec SampleRuntime.py no_value_sample H) as (H1 & _ & H3 & _).
  split; [exact H1 | exact H3].
Defined.

(** C10 as stated fails: without a current value column the total P&L is
    still the sum of the cash P&L, here 6 and not 0. *)
Lemma no_value_column_counterexample :
  (forall r, r ∈ no_value_sample -> r !! value_col = None)
  /\ total_pnl (df_to_pretty_html_marketstyle SampleRuntime.py (DataFrame_of no_value_sample)) = 6%Q
  /\ ~ Qeq (total_pnl (df_to_pretty_html_marketstyle SampleRuntime.py (DataFrame_of no_value_sample))) 0.
Proof.
  split; [|split].
  - intros r Hr. unfold no_value_sample in Hr.
    repeat (apply elem_of_cons in Hr as [->|Hr]; [vm_compute; reflexivity|]).
    by apply elem_of_nil in Hr.
  - vm_compute. reflexivity.
  - vm_compute. discriminate.
Qed.

(** ** The table body *)

Lemma separator_due_true i :
  separator_due i = true <-> (0 < i)%nat /\ (i mod 5 = 0)%nat.
Proof.
  unfold separator_due. rewrite andb_true_iff, Nat.ltb_lt, Nat.eqb_eq. done.
Qed.

Lemma rows_html_from_snoc i l x :
  rows_html_from i (l ++ [x])
  = rows_html_from i l
    ++ (if separator_due (i + length l) then [Separator] else [])
    ++ [DataRow x].
Proof.
  revert i. induction l as [|y l IH]; intros i; simpl.
  - by rewrite Nat.add_0_r.
  - rewrite IH. replace (S i + length l)%nat with (i + S (length l))%nat by lia.
    fold (separator_due i). by rewrite <- !app_assoc.
Qed.

Lemma div5_step n :
  (n + (n - 1) / 5 + (if separator_due n then 1 else 0) = n + n / 5)%nat.
Proof.
  destruct (separator_due n) eqn:E.
  - apply separator_due_true in E as [Hpos Hmod].
    pose proof (Nat.div_mod_eq n 5) as Hn.
    pose proof (Nat.div_mod_eq (n - 1) 5) as Hm.
    pose proof (Nat.mod_upper_bound (n - 1) 5).
    lia.
  - destruct n as [|n]; [done|].
    assert (S n mod 5 <> 0)%nat as Hmod.
    { intros Hmod. unfold separator_due in E. rewrite Hmod in E. done. }
    pose proof (Nat.div_mod_eq (S n) 5) as Hn.
    pose proof (Nat.div_mod_eq (S n - 1) 5) as Hm.
    pose proof (Nat.mod_upper_bound (S n - 1) 5).
    pose proof (Nat.mod_upper_bound (S n) 5).
    lia.
Qed.

Lemma rows_html_length l :
  length (rows_html l) = (length l + (length l - 1) / 5)%nat.
Proof.
  induction l as [|x l IH] using rev_ind; [done|].
  unfold rows_html in *. rewrite rows_html_from_snoc, !length_app, IH.
  change (0 + length l)%nat with (length l). cbn [length].
  pose proof (div5_step (length l)) as Hs.
  replace (length l + 1 - 1)%nat with (length l) by lia.
  destruct (separator_due (length l)); cbn [length]; lia.
Qed.

Lemma row_position_lt n i : (i < n)%nat -> (i + i / 5 < n + (n - 1) / 5)%nat.
Proof.
  intros H. assert (i / 5 <= (n - 1) / 5)%nat by (apply Nat.Div0.div_le_mono; lia). lia.
Qed.

(** Row [i] of the frame is entry [i + i / 5] of the table body. *)
Lemma rows_html_row l i x :
  l !! i = Some x -> rows_html l !! (i + i / 5)%nat = Some (DataRow x).
Proof.
  revert i x. induction l as [|x0 l IH] using rev_ind; intros i x Hi; [done|].
  pose proof (rows_html_length l) as Hlen.
  unfold rows_html in *. rewrite rows_html_from_snoc.
  change (0 + length l)%nat with (length l).
  destruct (decide (i < length l)%nat) as [Hlt|Hge].
  - rewrite lookup_app_l in Hi by done.
    rewrite lookup_app_l by (rewrite Hlen; by apply row_position_lt).
    by apply IH.
  - apply lookup_lt_Some in Hi as Hi'. rewrite length_app in Hi'. simpl in Hi'.
    assert (i = length l) as -> by lia.
    rewrite list_lookup_middle in Hi by done. injection Hi as ->.
    pose proof (div5_step (length l)) as Hs.
    rewrite app_assoc. apply list_lookup_middle.
    rewrite length_app, Hlen. destruct (separator_due (length l)); cbn [length]; lia.
Qed.

(** The separators of the table body: entry [k] is one exactly when the
    next entry is row [i] for a positive multiple [i] of 5. *)
Lemma rows_html_separator l k :
  rows_html l !! k = Some Separator
  <-> exists i, (0 < i < length l)%nat /\ (i mod 5 = 0)%nat
                /\ (k + 1 = i + i / 5)%nat.
Proof.
  revert k. induction l as [|x0 l IH] using rev_ind; intros k.
  - simpl. split; [done|]. intros (i & Hi & _). simpl in Hi. lia.
  - pose proof (rows_html_length l) as Hlen.
    pose proof (div5_step (length l)) as Hs.
    unfold rows_html in *. rewrite rows_html_from_snoc.
    change (0 + length l)%nat with (length l).
    rewrite length_app. cbn [length].
    destruct (decide (k < length (rows_html_from 0 l))%nat) as [Hlt|Hge].
    + rewrite lookup_app_l by done. rewrite IH. split.
      * intros (i & Hi & Hm & Hk). exists i. split; [lia|done].
      * intros (i & Hi & Hm & Hk). exists i. split; [|done].
        assert (i <> length l); [|lia]. intros ->.
        assert (separator_due (length l) = true) as E
          by (apply separator_due_true; split; [lia|done]).
        rewrite E in Hs. lia.
    + rewrite lookup_app_r by lia.
      destruct (separator_due (length l)) eqn:E.
      * apply separator_due_true in E as [Hpos Hmod]. split.
        -- intros Hk. exists (length l). split; [lia|]. split; [done|].
           destruct (k - length (rows_html_from 0 l))%nat as [|[|?]] eqn:Ek;
             simpl in Hk; try done. lia.
        -- intros (i & Hi & Hm & Hk).
           assert (i = length l) as ->.
           { destruct (decide (i < length l)%nat) as [Hil|]; [|lia].
             apply row_position_lt in Hil. lia. }
           replace (k - length (rows_html_from 0 l))%nat with 0%nat by lia. done.
      * split.
        -- intros Hk.
           destruct (k - length (rows_html_from 0 l))%nat as [|?]; simpl in Hk; done.
        -- intros (i & Hi & Hm & Hk). exfalso.
           destruct (decide (i < length l)%nat) as [Hil|].
           ++ apply row_position_lt in Hil. lia.
           ++ assert (i = length l) as -> by lia.
              assert (separator_due (length l) = true) as E'
                by (apply separator_due_true; split; [lia|done]).
              congruence.
Qed.

Lemma rows_html_twelve l k :
  length l = 12%nat ->
  rows_html l !! k = Some Separator <-> k = 5%nat \/ k = 11%nat.
Proof.
  intros H12. rewrite rows_html_separator, H12. split.
  - intros (i & Hi & Hm & Hk).
    assert (i = 5 \/ i = 10)%nat as [->| ->].
    { pose proof (Nat.div_mod_eq i 5). lia. }
    + left. change (5 / 5)%nat with 1%nat in Hk. lia.
    + right. change (10 / 5)%nat with 2%nat in Hk. lia.
  - intros [->| ->]; [exists 5%nat | exists 10%nat]; repeat split; lia.
Qed.

(** C5.  In the table body of the report, row [i] of the surviving rows is
    entry [i + i / 5], and an entry is a separator exactly when the entry
    after it is row [i] for some [i] that is a positive multiple of 5 below
    the number of rows: there is a separator immediately before rows 5, 10,
    15, ..., none before row 0 and none elsewhere.  With 12 rows the
    separators are entries 5 and 11 of the body, immediately before rows 5
    and 10. *)
Theorem separator_spec (rt : runtime) (df : DataFrame) :
  let shown := display rt (sort_and_filter rt df) in
  let body := tbody (df_to_pretty_html_marketstyle rt df) in
  length shown = len (sort_and_filter rt df)
  /\ (forall i row, shown !! i = Some row ->
        body !! (i + i / 5)%nat = Some (DataRow row))
  /\ (forall k, body !! k = Some Separator
        <-> exists i, (0 < i < length shown)%nat /\ (i mod 5 = 0)%nat
                      /\ (k + 1 = i + i / 5)%nat)
  /\ length body = (length shown + (length shown - 1) / 5)%nat
  /\ (length shown = 12%nat ->
      forall k, body !! k = Some Separator <-> k = 5%nat \/ k = 11%nat).
Proof.
  intros shown body. subst shown body.
  unfold df_to_pretty_html_marketstyle, report_of. cbn [tbody].
  split; [apply length_display|].
  split; [apply rows_html_row|]. split; [apply rows_html_separator|].
  split; [apply rows_html_length|].
  intros H12 k. by apply rows_html_twelve.
Qed.

Lemma separator_spec_witness :
  length (display SampleRuntime.py (sort_and_filter SampleRuntime.py twelve_sample))
  = 12%nat
  /\ (tbody (df_to_pretty_html_marketstyle SampleRuntime.py twelve_sample)
        !! 5%nat = Some Separator
      <-> 5%nat = 5%nat \/ 5%nat = 11%nat).
Proof.
  assert (length (display SampleRuntime.py
                    (sort_and_filter SampleRuntime.py twelve_sample)) = 12%nat)
    as H12 by (vm_compute; reflexivity).
  split; [exact H12|].
  destruct (separator_spec SampleRuntime.py twelve_sample) as (_ & _ & _ & _ & H).
  exact (H H12 5%nat).
Defined.

(** ** The P&L line *)

Lemma pnl_sign_pos cash pct01 :
  pnl_sign cash pct01 = "pos" <-> pnl_nonneg cash pct01.
Proof.
  unfold pnl_sign, pnl_nonneg.
  destruct cash as [c|], pct01 as [p|]; simpl;
    rewrite ?orb_false_r; try (destruct (Qle_bool _ _) eqn:E);
    try (apply Qle_bool_iff in E); try (apply Qle_bool_false in E);
    split; try done; intros H; exfalso; eapply Qlt_not_le; eauto.
Qed.

Lemma pnl_sign_cases cash pct01 :
  pnl_sign cash pct01 = "pos" \/ pnl_sign cash pct01 = "neg".
Proof. unfold pnl_sign. destruct (_ || _); auto. Qed.

(** C7.  [_fmt_pnl_line] (formatPnlLine): the result is the empty text
    exactly when both the cash P&L and the percentage are absent; otherwise
    it is a span whose class is [pos] exactly when the cash P&L is present
    and not negative, or is absent while the percentage is not negative, and
    [neg] in every other case. *)
Theorem fmt_pnl_line_spec (rt : runtime) (cash pct01 : option Q) :
  (_fmt_pnl_line rt cash pct01 = EmptyString <-> cash = None /\ pct01 = None)
  /\ (pnl_sign cash pct01 = "pos" <-> pnl_nonneg cash pct01)
  /\ (pnl_sign cash pct01 = "neg" <-> ~ pnl_nonneg cash pct01)
  /\ (~ (cash = None /\ pct01 = None) ->
      exists inner,
        _fmt_pnl_line rt cash pct01
        = "<span class=" +:+ dq +:+ "pnl " +:+ pnl_sign cash pct01 +:+ dq
            +:+ ">" +:+ inner +:+ "</span>").
Proof.
  split; [|split; [|split]].
  - unfold _fmt_pnl_line. destruct cash as [c|], pct01 as [p|]; simpl;
      (split; [try done | try (by intros [? ?])]).
  - apply pnl_sign_pos.
  - rewrite <- pnl_sign_pos. destruct (pnl_sign_cases cash pct01) as [-> | ->];
      split; try done; intros H; by destruct H.
  - intros Hsome. unfold _fmt_pnl_line.
    destruct cash as [c|], pct01 as [p|]; simpl; try (by destruct Hsome); eauto.
Qed.

Lemma fmt_pnl_line_spec_witness :
  ~ (@None Q = None /\ Some (-0.25)%Q = None)
  /\ exists inner,
       _fmt_pnl_line SampleRuntime.py None (Some (-0.25)%Q)
       = "<span class=" +:+ dq +:+ "pnl " +:+ "neg" +:+ dq
           +:+ ">" +:+ inner +:+ "</span>".
Proof.
  assert (~ (@None Q = None /\ Some (-0.25)%Q = None)) as Hsome
    by (intros [_ H]; discriminate H).
  split; [exact Hsome|].
  exact (proj2 (proj2 (proj2
           (fmt_pnl_line_spec SampleRuntime.py None (Some (-0.25)%Q)))) Hsome).
Defined.

(** ** The side chip *)

Lemma chip_of_yes s :
  lower s = "yes" -> chip_of s = tag "span" "chip chip-yes" s.
Proof. intros H. unfold chip_of. by rewrite H. Qed.

Lemma chip_of_no s :
  lower s = "no" -> chip_of s = tag "span" "chip chip-no" s.
Proof. intros H. unfold chip_of. by rewrite H. Qed.

Lemma chip_of_other s :
  lower s <> "yes" -> lower s <> "no" -> s <> EmptyString ->
  chip_of s = tag "span" "chip" s.
Proof.
  intros H1 H2 H3. unfold chip_of.
  apply String.eqb_neq in H1, H2. rewrite H1, H2. by destruct s.
Qed.

Lemma chip_of_empty : chip_of EmptyString = EmptyString.
Proof. reflexivity. Qed.

(** Without an outcome column no row gets a chip. *)
Lemma chips_no_side_column rt data :
  has_column (sort_and_filter rt (DataFrame_of data)) side_col = false ->
  forall c, c ∈ chips rt data -> c = EmptyString.
Proof.
  intros Hcol c Hc. unfold chips, market_cells in Hc.
  rewrite <- list_fmap_compose in Hc.
  apply list_elem_of_fmap in Hc as (i & -> & Hi). simpl.
  unfold side. rewrite Hcol. unfold iloc.
  destruct (replicate _ _ !! i) as [s|] eqn:E; simpl; [|done].
  apply lookup_replicate in E as [-> _]. done.
Qed.

Lemma iloc_fmap {A B : Type} (d : B) (f : A -> B) (l : list A) i x :
  l !! i = Some x -> iloc d (f <$> l) i = f x.
Proof. intros H. unfold iloc. by rewrite list_lookup_fmap, H. Qed.

(** The chip of row [i] is chosen from what [astype(str)] makes of its
    outcome entry; an entry that is still missing then is stopped by the
    [pd.notna] guard of line 100. *)
Lemma chips_lookup rt data i r :
  rows (sort_and_filter rt (DataFrame_of data)) !! i = Some r ->
  chips rt data !! i
  = Some (chip_of (default EmptyString
                     (if has_column (DataFrame_of data) side_col
                      then astype_str1 rt (get r side_col)
                      else Some EmptyString))).
Proof.
  intros Hr. unfold chips, market_cells.
  rewrite <- list_fmap_compose, list_lookup_fmap.
  pose proof (lookup_lt_Some _ _ _ Hr) as Hlt.
  rewrite lookup_seq_lt by exact Hlt. simpl. f_equal.
  unfold side. rewrite has_column_sort_and_filter.
  destruct (has_column (DataFrame_of data) side_col).
  - unfold astype_str, df_col. rewrite <- list_fmap_compose.
    rewrite (iloc_fmap _ _ _ i r Hr). simpl.
    by destruct (astype_str1 rt (get r side_col)) as [[|]|].
  - unfold iloc. rewrite lookup_replicate_2 by exact Hlt. done.
Qed.

(** A record without the outcome field in a frame that has the column, under
    pandas 2: the guard of line 100 sees the text nan. *)
Lemma chips_absent_outcome_text rt data i r :
  astype_keeps_missing rt = false ->
  rows (sort_and_filter rt (DataFrame_of data)) !! i = Some r ->
  has_column (DataFrame_of data) side_col = true ->
  get r side_col = NaN ->
  chips rt data !! i = Some (tag "span" "chip" "nan").
Proof.
  intros Hrt Hr Hcol Hna. rewrite (chips_lookup rt data i r Hr), Hcol, Hna.
  cbn [astype_str1]. rewrite Hrt. done.
Qed.

(** The same record under pandas 3, and any record of a frame without the
    column: no chip. *)
Lemma chips_absent_outcome_missing rt data i r :
  astype_keeps_missing rt = true ->
  rows (sort_and_filter rt (DataFrame_of data)) !! i = Some r ->
  get r side_col = NaN ->
  chips rt data !! i = Some EmptyString.
Proof.
  intros Hrt Hr Hna. rewrite (chips_lookup rt data i r Hr), Hna.
  cbn [astype_str1]. rewrite Hrt.
  by destruct (has_column (DataFrame_of data) side_col).
Qed.

Lemma chips_present_outcome rt data i r s :
  rows (sort_and_filter rt (DataFrame_of data)) !! i = Some r ->
  get r side_col = Str s ->
  chips rt data !! i = Some (chip_of s).
Proof.
  intros Hr Hs. rewrite (chips_lookup rt data i r Hr), Hs. simpl.
  destruct (has_column (DataFrame_of data) side_col) eqn:Hcol; [done|].
  exfalso. apply has_column_false in Hcol.
  pose proof (well_formed_sort_and_filter rt _ (well_formed_DataFrame_of data)) as Hwf.
  apply list_elem_of_lookup_2 in Hr.
  apply Hcol. apply (columns_sort_and_filter rt). apply (Hwf r side_col Hr).
  unfold has_field. unfold get in Hs. destruct (r !! side_col); [eauto|done].
Qed.

(** C8, with the input where the code departs from it.  A record whose
    outcome is a text gets the chip of that text: green for yes and red for
    no in any letter case, neutral for any other non-empty text.  For a
    record without an outcome in a frame that has the outcome column, what
    happens depends on the pandas release, and [setup.py] admits both
    ([pandas>=2.0.0]).  Under pandas 3 [astype(str)] leaves the entry
    missing, the [pd.notna] guard of line 100 stops it and the row has no
    chip, as the claim says.  Under pandas 2 the entry has become the text
    nan before the guard looks at it, and the row gets a neutral chip
    reading nan: of two held positions, the first with outcome Yes and the
    second with none, the second gets that chip. *)
Theorem side_chip_absent_outcome :
  chips SampleRuntime.py chip_sample
  = [ tag "span" "chip chip-yes" "Yes"; tag "span" "chip" "nan" ]
  /\ chips SampleRuntime.py3 chip_sample
     = [ tag "span" "chip chip-yes" "Yes"; EmptyString ]
  /\ (forall rt data i r,
        astype_keeps_missing rt = false ->
        rows (sort_and_filter rt (DataFrame_of data)) !! i = Some r ->
        has_column (DataFrame_of data) side_col = true ->
        get r side_col = NaN ->
        chips rt data !! i = Some (tag "span" "chip" "nan"))
  /\ (forall rt data i r,
        astype_keeps_missing rt = true ->
        rows (sort_and_filter rt (DataFrame_of data)) !! i = Some r ->
        get r side_col = NaN ->
        chips rt data !! i = Some EmptyString)
  /\ (forall rt data i r s,
        rows (sort_and_filter rt (DataFrame_of data)) !! i = Some r ->
        get r side_col = Str s ->
        chips rt data !! i = Some (chip_of s)
        /\ (lower s = "yes" -> chip_of s = tag "span" "chip chip-yes" s)
        /\ (lower s = "no" -> chip_of s = tag "span" "chip chip-no" s)
        /\ (lower s <> "yes" -> lower s <> "no" -> s <> EmptyString ->
            chip_of s = tag "span" "chip" s)
        /\ (s = EmptyString -> chip_of s = EmptyString)).
Proof.
  split; [vm_compute; reflexivity|].
  split; [vm_compute; reflexivity|].
  split; [exact chips_absent_outcome_text|].
  split; [exact chips_absent_outcome_missing|].
  intros rt data i r s Hr Hs.
  split; [exact (chips_present_outcome rt data i r s Hr Hs)|].
  split; [apply chip_of_yes|].
  split; [apply chip_of_no|].
  split; [apply chip_of_other|].
  intros ->. apply chip_of_empty.
Qed.

(** The second row of the sample has no outcome: its chip under either
    release. *)
Lemma side_chip_absent_outcome_witness :
  chips SampleRuntime.py chip_sample !! 1%nat = Some (tag "span" "chip" "nan")
  /\ chips SampleRuntime.py3 chip_sample !! 1%nat = Some EmptyString.
Proof.
  pose proof side_chip_absent_outcome as (_ & _ & H2 & H3 & _).
  split.
  - apply (H2 SampleRuntime.py chip_sample 1%nat
              {[ "title" := Str "B"; "currentValue" := Num 5 ]});
      vm_compute; reflexivity.
  - apply (H3 SampleRuntime.py3 chip_sample 1%nat
              {[ "title" := Str "B"; "currentValue" := Num 5 ]});
      vm_compute; reflexivity.
Defined.

(** ** Delivery *)

Module DeliveryFacts.
Import Delivery DeliverySpec.

Lemma smtp_session_run env recipients w :
  smtp_session env recipients w
  = ({| files := files w; trace := trace w ++ [EvSmtp recipients] |},
     match smtp_error env recipients with
     | Some e => Raise e
     | None => Return tt
     end).
Proof.
  unfold smtp_session, bind, log. by destruct (smtp_error env recipients).
Qed.

Lemma send_message_run env recipients w :
  _send_message env recipients w
  = ({| files := files w; trace := trace w ++ [EvSmtp recipients] |},
     Return (match smtp_error env recipients with None => true | Some _ => false end)).
Proof.
  unfold _send_message, try_except, bind. rewrite smtp_session_run.
  destruct (smtp_error env recipients) as [[]|]; reflexivity.
Qed.

Lemma send_email_run env config recipient subject html text w :
  send_email env config recipient subject html text w
  = (match mime_error env with
     | Some _ => w
     | None => {| files := files w; trace := trace w ++ [EvSmtp [recipient]] |}
     end,
     Return (send_succeeds env recipient)).
Proof.
  unfold send_email, send_succeeds, try_except, bind.
  destruct (mime_error env) as [e|]; simpl; [reflexivity|].
  rewrite send_message_run. by destruct (smtp_error env [recipient]).
Qed.

Lemma write_report_run rt env df path w :
  write_error env path = None ->
  write_report rt env df path w
  = ({| files := <[path := template env (df_to_pretty_html_marketstyle rt df)]> (files w);
        trace := trace w ++ [EvWrite path] |},
     Return path).
Proof.
  intros H. unfold write_report, write_text, bind. by rewrite H.
Qed.

Lemma write_report_fails rt env df path e w :
  write_error env path = Some e ->
  write_report rt env df path w
  = (match write_residue env path with
     | Some partial =>
         {| files := <[path := partial]> (files w); trace := trace w |}
     | None => w
     end, Raise e).
Proof.
  intros H. unfold write_report, write_text, bind. by rewrite H.
Qed.

Lemma get_user_positions_run env address data w :
  http_get_json env (positions_url address) = Return data ->
  get_user_positions env address w
  = ({| files := files w; trace := trace w ++ [EvFetch (positions_url address)] |},
     Return (DataFrame_of data)).
Proof.
  intros H. unfold get_user_positions, bind, log, lift.
  fold (positions_url address). by rewrite H.
Qed.

Lemma GmailSender_run env w :
  GmailSender env w
  = (w,
     match py_int env (getenv_default env "SMTP_PORT" "587") with
     | None =>
         Raise (ValueError (int_error env (getenv_default env "SMTP_PORT" "587")))
     | Some p =>
         if nonempty (getenv_default env "GMAIL_EMAIL" EmptyString)
         then if nonempty (getenv_default env "GMAIL_APP_PASSWORD" EmptyString)
              then Return
                     {| smtp_server := getenv_default env "SMTP_SERVER" "smtp.gmail.com";
                        smtp_port := p;
                        sender_email := getenv_default env "GMAIL_EMAIL" EmptyString;
                        sender_password :=
                          getenv_default env "GMAIL_APP_PASSWORD" EmptyString;
                        sender_name := getenv env "SENDER_NAME";
                        use_tls :=
                          String.eqb (lower (getenv_default env "USE_TLS" "True"))
                            "true" |}
              else Raise (ValueError
                            "GMAIL_APP_PASSWORD environment variable is required")
         else Raise (ValueError "GMAIL_EMAIL environment variable is required")
     end).
Proof.
  unfold GmailSender, from_env, validate, bind, ret, raise.
  destruct (py_int env _) as [p|]; [|reflexivity].
  cbn [sender_email sender_password].
  destruct (nonempty (getenv_default env "GMAIL_EMAIL" EmptyString));
    cbn [negb]; [|reflexivity].
  by destruct (nonempty (getenv_default env "GMAIL_APP_PASSWORD" EmptyString)).
Qed.

(** [send_email] never raises: it answers whether the message went out. *)
Lemma send_email_total env config recipient subject html text w :
  exists b, snd (send_email env config recipient subject html text w) = Return b
  /\ files (fst (send_email env config recipient subject html text w)) = files w
  /\ (b = true <-> mime_error env = None /\ smtp_error env [recipient] = None).
Proof.
  rewrite send_email_run. exists (send_succeeds env recipient). simpl.
  split; [done|]. split; [by destruct (mime_error env)|].
  unfold send_succeeds.
  destruct (mime_error env), (smtp_error env [recipient]); split; try done;
    intros [? ?]; done.
Qed.

(** The driver up to the point where delivery starts: the positions are
    fetched and the report is on disk. *)
Lemma create_and_send_report_run rt env address recipient html_path data w :
  http_get_json env (positions_url address) = Return data ->
  write_error env html_path = None ->
  nonempty recipient = true ->
  create_and_send_report rt env address (Some recipient) true html_path w
  = try_except
      (sender <- GmailSender env ;;
       html_content <- read_text env html_path ;;
       success <- send_email env sender recipient
                    ("Polymarket Positions Report - "
                       +:+ String.substring 0 8 address +:+ "...")
                    html_content
                    "Please view this email in HTML format for the best experience." ;;
       ret (html_path, Some success))
      (fun e =>
         match e with
         | ValueError msg =>
             if contains "GMAIL_EMAIL" msg || contains "GMAIL_APP_PASSWORD" msg
             then Some (ret (html_path, Some false))
             else None
         | _ => None
         end)
      {| files :=
           <[html_path := template env
               (df_to_pretty_html_marketstyle rt (titled (DataFrame_of data)))]>
             (files w);
         trace := (trace w ++ [EvFetch (positions_url address)])
                  ++ [EvWrite html_path] |}.
Proof.
  intros Hfetch Hwrite Hrcp.
  unfold create_and_send_report, bind at 1.
  rewrite (get_user_positions_run env address data) by done.
  fold (titled (DataFrame_of data)). unfold bind at 1.
  rewrite write_report_run by done. rewrite Hrcp. reflexivity.
Qed.

(** The delivery part of the driver, run from the world in which the report
    has been written: the world it leaves and what it returns or raises. *)
Lemma delivery_run env recipient html_path subject text html w :
  files w !! html_path = Some html ->
  try_except
    (sender <- GmailSender env ;;
     html_content <- read_text env html_path ;;
     success <- send_email env sender recipient subject html_content text ;;
     ret (html_path, Some success))
    (fun e =>
       match e with
       | ValueError msg =>
           if contains "GMAIL_EMAIL" msg || contains "GMAIL_APP_PASSWORD" msg
           then Some (ret (html_path, Some false))
           else None
       | _ => None
       end) w
  = match py_int env (getenv_default env "SMTP_PORT" "587") with
    | None =>
        (w, handled html_path
              (ValueError (int_error env (getenv_default env "SMTP_PORT" "587"))))
    | Some _ =>
        if credentials_set env
        then match reread_error env html_path with
             | Some e => (w, handled html_path e)
             | None =>
                 (match mime_error env with
                  | Some _ => w
                  | None => {| files := files w;
                               trace := trace w ++ [EvSmtp [recipient]] |}
                  end,
                  Return (html_path, Some (send_succeeds env recipient)))
             end
        else (w, Return (html_path, Some false))
    end.
Proof.
  intros Hfile. unfold try_except, bind. rewrite GmailSender_run.
  unfold handled, names_credential, credentials_set.
  destruct (py_int env _) as [p|].
  - destruct (nonempty (getenv_default env "GMAIL_EMAIL" EmptyString));
      cbn [andb]; [|reflexivity].
    destruct (nonempty (getenv_default env "GMAIL_APP_PASSWORD" EmptyString));
      [|reflexivity].
    unfold read_text. rewrite Hfile.
    destruct (reread_error env html_path) as [e|].
    + destruct e as [msg| | | |]; try reflexivity.
      by destruct (contains "GMAIL_EMAIL" msg || contains "GMAIL_APP_PASSWORD" msg).
    + rewrite send_email_run. reflexivity.
  - by destruct (contains "GMAIL_EMAIL" _ || contains "GMAIL_APP_PASSWORD" _).
Qed.

(** C9, as the code has it.  [send_email] never raises: it returns a
    boolean, true exactly when neither building the message nor the SMTP
    session failed.  When the positions are fetched and the file can be
    written, a run of [create_and_send_report] that is asked to deliver
    leaves the rendered report at [html_path] whatever happens afterwards
    and writes it before any SMTP session is opened.  It returns the report
    path with the boolean outcome, false when a credential is missing or
    the send failed, provided [SMTP_PORT] reads as an integer and the report
    can be read back.  Otherwise the exception met while delivering decides:
    a [ValueError] whose message names [GMAIL_EMAIL] or [GMAIL_APP_PASSWORD]
    ends the run with the path and false, and any other exception, such as
    the [ValueError] of a [SMTP_PORT] that is no integer, is raised to the
    caller, with the report still on disk. *)
Theorem delivery_failure_keeps_report (rt : runtime) (env : environment)
    (address recipient html_path : string) (data : list (gmap string cell))
    (w : world) :
  http_get_json env (positions_url address) = Return data ->
  write_error env html_path = None ->
  nonempty recipient = true ->
  let html := template env
                (df_to_pretty_html_marketstyle rt (titled (DataFrame_of data))) in
  let run := create_and_send_report rt env address (Some recipient) true
               html_path w in
  let port := getenv_default env "SMTP_PORT" "587" in
  (forall config subject body_html body_text w',
     exists b,
       snd (send_email env config recipient subject body_html body_text w')
       = Return b
       /\ (b = true <-> mime_error env = None /\ smtp_error env [recipient] = None))
  /\ files (fst run) !! html_path = Some html
  /\ (exists rest,
        trace (fst run)
        = trace w ++ [EvFetch (positions_url address); EvWrite html_path] ++ rest
        /\ (rest = [] \/ rest = [EvSmtp [recipient]]))
  /\ (forall p, py_int env port = Some p ->
        credentials_set env = false \/ reread_error env html_path = None ->
        snd run
        = Return (html_path,
                  Some (credentials_set env && send_succeeds env recipient)))
  /\ (py_int env port = None ->
        snd run = handled html_path (ValueError (int_error env port)))
  /\ (forall p e, py_int env port = Some p -> credentials_set env = true ->
        reread_error env html_path = Some e ->
        snd run = handled html_path e)
  /\ (forall msg,
        handled html_path (ValueError msg)
        = if names_credential msg then Return (html_path, Some false)
          else Raise (ValueError msg))
  /\ (forall e, (forall msg, e <> ValueError msg) ->
        handled html_path e = Raise e).
Proof.
  intros Hfetch Hwrite Hrcp html run port.
  split.
  { intros config subject body_html body_text w'.
    destruct (send_email_total env config recipient subject body_html body_text w')
      as (b & Hb & _ & Hiff). eauto. }
  subst run port.
  rewrite (create_and_send_report_run rt env address recipient html_path data)
    by done.
  fold html.
  rewrite (delivery_run env recipient html_path _ _ html)
    by (cbn [files]; apply lookup_insert_eq).
  set (W := {| files := <[html_path := html]> (files w);
               trace := (trace w ++ [EvFetch (positions_url address)])
                        ++ [EvWrite html_path] |}).
  assert (files W !! html_path = Some html) as H1
    by (cbn [W files]; apply lookup_insert_eq).
  assert (exists rest,
            trace W
            = trace w
              ++ [EvFetch (positions_url address); EvWrite html_path] ++ rest
            /\ (rest = [] \/ rest = [EvSmtp [recipient]])) as H2.
  { exists []. split; [|by left]. cbn [W trace]. by rewrite <- app_assoc. }
  assert ((forall msg,
             handled html_path (ValueError msg)
             = if names_credential msg then Return (html_path, Some false)
               else Raise (ValueError msg))
          /\ (forall e, (forall msg, e <> ValueError msg) ->
                handled html_path e = Raise e)) as H3.
  { split; [done|]. intros [msg| | | |] He; try done. by destruct (He msg). }
  destruct (py_int env (getenv_default env "SMTP_PORT" "587")) as [p|].
  - destruct (credentials_set env).
    + destruct (reread_error env html_path) as [e|].
      * cbn [fst snd].
        split; [exact H1|]. split; [exact H2|].
        split; [by intros p' _ [?|?]|]. split; [done|].
        split; [by intros p' e' _ _ [= <-]|]. exact H3.
      * cbn [fst snd andb].
        split; [destruct (mime_error env); exact H1|].
        split.
        { destruct (mime_error env); [exact H2|]. cbn [W trace].
          exists [EvSmtp [recipient]]. split; [|by right].
          by rewrite <- !app_assoc. }
        split; [done|]. split; [done|]. split; [done|]. exact H3.
    + cbn [fst snd andb].
      split; [exact H1|]. split; [exact H2|].
      split; [done|]. split; [done|]. split; [done|]. exact H3.
  - cbn [fst snd].
    split; [exact H1|]. split; [exact H2|].
    split; [done|]. split; [done|]. split; [done|]. exact H3.
Qed.

(** The server refuses the login: the run returns the path with [False]
    and the report is on disk. *)
Lemma delivery_failure_keeps_report_witness :
  http_get_json refusing (positions_url "0xabc") = Return chip_sample
  /\ write_error refusing "report.html" = None
  /\ nonempty "you@example.com" = true
  /\ py_int refusing (getenv_default refusing "SMTP_PORT" "587") = Some 587%Z
  /\ snd (create_and_send_report SampleRuntime.py refusing "0xabc"
            (Some "you@example.com") true "report.html" world0)
     = Return ("report.html", Some false)
  /\ files (fst (create_and_send_report SampleRuntime.py refusing "0xabc"
                   (Some "you@example.com") true "report.html" world0))
       !! "report.html"
     = Some "2".
Proof.
  assert (http_get_json refusing (positions_url "0xabc") = Return chip_sample)
    as Hfetch by reflexivity.
  assert (write_error refusing "report.html" = None) as Hwrite by reflexivity.
  assert (nonempty "you@example.com" = true) as Hrcp by reflexivity.
  assert (py_int refusing (getenv_default refusing "SMTP_PORT" "587") = Some 587%Z)
    as Hport by (vm_compute; reflexivity).
  split; [exact Hfetch|]. split; [exact Hwrite|]. split; [exact Hrcp|].
  split; [exact Hport|].
  destruct (delivery_failure_keeps_report SampleRuntime.py refusing "0xabc"
              "you@example.com" "report.html" chip_sample world0
              Hfetch Hwrite Hrcp) as (_ & Hfile & _ & Hret & _).
  split.
  - rewrite (Hret 587%Z Hport (or_intror eq_refl)). vm_compute. reflexivity.
  - rewrite Hfile. vm_compute. reflexivity.
Defined.

(** Where the sentence of C9 fails: with both credentials set and a server
    that would accept the message, [SMTP_PORT=abc] makes the run raise the
    [ValueError] of [int()] instead of returning the report path.  The
    report is on disk all the same, and no SMTP session was opened. *)
Lemma delivery_failure_counterexample :
  let run := create_and_send_report SampleRuntime.py bad_port "0xabc"
               (Some "you@example.com") true "report.html" world0 in
  snd run
  = Raise (ValueError "invalid literal for int() with base 10: 'abc'")
  /\ ~ (exists path sent, snd run = Return (path, sent))
  /\ files (fst run) !! "report.html" = Some "2"
  /\ trace (fst run)
     = [EvFetch (positions_url "0xabc"); EvWrite "report.html"].
Proof.
  assert (snd (create_and_send_report SampleRuntime.py bad_port "0xabc"
                 (Some "you@example.com") true "report.html" world0)
          = Raise (ValueError "invalid literal for int() with base 10: 'abc'"))
    as Hrun by (vm_compute; reflexivity).
  cbv zeta. split; [exact Hrun|].
  split; [intros (path & sent & H); rewrite Hrun in H; discriminate H|].
  split; vm_compute; reflexivity.
Qed.

End DeliveryFacts.

(** * Further properties *)

(** ** Rows of the report, record by record *)

Lemma lookup_indexed {A : Type} (f : nat -> A) n i :
  (i < n)%nat -> (f <$> seq 0 n) !! i = Some (f i).
Proof. intros H. by rewrite list_lookup_fmap, lookup_seq_lt. Qed.

Lemma lookup_indexed_Some {A : Type} (f : nat -> A) n i x :
  (f <$> seq 0 n) !! i = Some x -> (i < n)%nat /\ x = f i.
Proof.
  intros H. pose proof (lookup_lt_Some _ _ _ H) as Hlt.
  rewrite length_fmap, length_seq in Hlt.
  rewrite lookup_indexed in H by done. by injection H as <-.
Qed.

Lemma iloc_replicate {A : Type} (d x : A) n i :
  (i < n)%nat -> iloc d (replicate n x) i = x.
Proof. intros H. unfold iloc. by rewrite lookup_replicate_2. Qed.

Lemma row_lt df i r : rows df !! i = Some r -> (i < len df)%nat.
Proof. apply lookup_lt_Some. Qed.

Lemma iloc_astype_str rt df c d i r :
  rows df !! i = Some r ->
  iloc d (astype_str rt (df_col df c)) i = astype_str1 rt (get r c).
Proof.
  intros H. unfold astype_str, df_col. rewrite <- list_fmap_compose.
  by rewrite (iloc_fmap _ _ _ i r H).
Qed.

Lemma iloc_to_numeric rt df c i r :
  rows df !! i = Some r ->
  iloc None (to_numeric rt (df_col df c)) i = to_numeric1 rt (get r c).
Proof.
  intros H. unfold to_numeric, df_col. rewrite <- list_fmap_compose.
  by rewrite (iloc_fmap _ _ _ i r H).
Qed.

Lemma parsed_column_at rt df c i r :
  rows df !! i = Some r ->
  parsed_column rt df c !! i = Some (number_at rt df c r).
Proof.
  intros H. unfold parsed_column, column_of, number_at.
  destruct (has_column df c).
  - unfold to_numeric, df_col. rewrite <- list_fmap_compose, list_lookup_fmap.
    by rewrite H.
  - unfold nan_series. rewrite lookup_replicate_2; [done|]. by eapply row_lt.
Qed.

Lemma normalizeCents_absent parsed i :
  normalizeCents parsed !! i = Some None <-> parsed !! i = Some None.
Proof.
  unfold normalizeCents.
  destruct (median (dropna parsed)); [destruct (Qlt_le_dec _ _)|]; try done.
  rewrite list_lookup_fmap. destruct (parsed !! i) as [[x|]|]; simpl; split; done.
Qed.

Lemma normalizeCents_length parsed :
  length (normalizeCents parsed) = length parsed.
Proof.
  unfold normalizeCents.
  destruct (median (dropna parsed)); [destruct (Qlt_le_dec _ _)|];
    by rewrite ?length_fmap.
Qed.

Lemma length_to_cents rt df c : length (_to_cents rt df c) = len df.
Proof. by rewrite to_cents_refines, normalizeCents_length, length_parsed_column. Qed.

Lemma length_to_pct01 rt df c : length (_to_pct01 rt df c) = len df.
Proof. by rewrite to_pct01_refines, normalizePercent_length, length_parsed_column. Qed.

(** Whether a normalized entry is absent is decided by the record alone. *)
Lemma to_cents_at rt df c i r :
  rows df !! i = Some r ->
  exists x, _to_cents rt df c !! i = Some x
            /\ (x = None <-> number_at rt df c r = None).
Proof.
  intros H. pose proof (row_lt _ _ _ H) as Hlt.
  destruct (lookup_lt_is_Some_2 (_to_cents rt df c) i) as [x Hx];
    [by rewrite length_to_cents|].
  exists x. split; [done|].
  pose proof (normalizeCents_absent (parsed_column rt df c) i) as Habs.
  rewrite <- to_cents_refines, Hx, (parsed_column_at rt df c i r H) in Habs.
  split; intros E.
  - subst x. destruct Habs as [Habs _]. by injection (Habs eq_refl) as ->.
  - rewrite E in Habs. destruct Habs as [_ Habs]. by injection (Habs eq_refl) as ->.
Qed.

Lemma to_pct01_at rt df c i r :
  rows df !! i = Some r ->
  exists x, _to_pct01 rt df c !! i = Some x
            /\ (x = None <-> number_at rt df c r = None).
Proof.
  intros H. pose proof (row_lt _ _ _ H) as Hlt.
  destruct (lookup_lt_is_Some_2 (_to_pct01 rt df c) i) as [x Hx];
    [by rewrite length_to_pct01|].
  exists x. split; [done|].
  pose proof (normalizePercent_absent (parsed_column rt df c) i) as Habs.
  rewrite <- to_pct01_refines, Hx, (parsed_column_at rt df c i r H) in Habs.
  split; intros E.
  - subst x. destruct Habs as [Habs _]. by injection (Habs eq_refl) as ->.
  - rewrite E in Habs. destruct Habs as [_ Habs]. by injection (Habs eq_refl) as ->.
Qed.

Lemma length_titles rt df : length (titles rt df) = len df.
Proof.
  unfold titles, astype_str.
  repeat destruct (has_column _ _);
    by rewrite ?length_fmap, ?length_df_col, ?length_replicate.
Qed.

Lemma length_slugs rt df : length (slugs rt df) = len df.
Proof.
  unfold slugs, astype_str.
  destruct (has_column _ _);
    by rewrite ?length_fmap, ?length_df_col, ?length_replicate.
Qed.

Lemma length_logos rt df : length (logos rt df) = len df.
Proof.
  unfold logos, astype_str.
  destruct (has_column _ _);
    by rewrite ?length_fmap, ?length_df_col, ?length_replicate.
Qed.

Lemma length_side rt df : length (side rt df) = len df.
Proof.
  unfold side, astype_str.
  destruct (has_column _ _);
    by rewrite ?length_fmap, ?length_df_col, ?length_replicate.
Qed.

Lemma length_guarded_numeric rt df c :
  length (if has_column df c then to_numeric rt (df_col df c)
          else nan_series (len df)) = len df.
Proof.
  destruct (has_column df c); unfold nan_series;
    by rewrite ?length_to_numeric, ?length_df_col, ?length_replicate.
Qed.

Lemma length_market_cells rt df : length (market_cells rt df) = len df.
Proof. unfold market_cells. by rewrite length_fmap, length_seq. Qed.

Lemma length_value_cells rt df : length (value_cells rt df) = len df.
Proof. unfold value_cells. by rewrite length_fmap, length_seq. Qed.

(** Every Series the row loops index has one entry per row of the frame. *)
Lemma series_lengths (rt : runtime) (df : DataFrame) :
  Forall (fun n => n = len df)
    [ length (titles rt df); length (slugs rt df); length (logos rt df);
      length (side rt df); length (shares rt df);
      length (_to_cents rt df avg_price_col);
      length (_to_cents rt df cur_price_col);
      length (value rt df); length (cash rt df);
      length (_to_pct01 rt df pct_pnl_col);
      length (market_cells rt df); length (value_cells rt df);
      length (display rt df) ].
Proof.
  repeat apply Forall_cons_2; try apply Forall_nil_2.
  - apply length_titles.
  - apply length_slugs.
  - apply length_logos.
  - apply length_side.
  - apply length_guarded_numeric.
  - apply length_to_cents.
  - apply length_to_cents.
  - apply length_guarded_numeric.
  - apply length_guarded_numeric.
  - apply length_to_pct01.
  - apply length_market_cells.
  - apply length_value_cells.
  - apply length_display.
Qed.

(** X1.  Every Series that the two row loops read by position, and every
    column of the display frame, has exactly one entry per row of the
    frame: for each row index below [len df] all the positional reads find
    an entry, and the four columns of the display frame have equal
    length. *)
Theorem positional_reads_in_range (rt : runtime) (df : DataFrame) (i : nat) :
  (i < len df)%nat ->
  is_Some (titles rt df !! i) /\ is_Some (slugs rt df !! i)
  /\ is_Some (logos rt df !! i) /\ is_Some (side rt df !! i)
  /\ is_Some (shares rt df !! i)
  /\ is_Some (_to_cents rt df avg_price_col !! i)
  /\ is_Some (_to_cents rt df cur_price_col !! i)
  /\ is_Some (value rt df !! i) /\ is_Some (cash rt df !! i)
  /\ is_Some (_to_pct01 rt df pct_pnl_col !! i)
  /\ is_Some (market_cells rt df !! i) /\ is_Some (value_cells rt df !! i)
  /\ length (market_cells rt df) = length (value_cells rt df)
  /\ length (_to_cents rt df avg_price_col) = length (market_cells rt df)
  /\ length (_to_cents rt df cur_price_col) = length (market_cells rt df).
Proof.
  intros Hi. pose proof (series_lengths rt df) as H.
  repeat (apply Forall_cons_1 in H as [?%eq_sym H]).
  repeat split; try (apply lookup_lt_is_Some_2; congruence); congruence.
Qed.

Lemma positional_reads_in_range_witness :
  (1 < len row_frame)%nat
  /\ is_Some (_to_pct01 SampleRuntime.py row_frame pct_pnl_col !! 1%nat).
Proof.
  assert (1 < len row_frame)%nat as Hi by (vm_compute; lia).
  split; [exact Hi|].
  destruct (positional_reads_in_range SampleRuntime.py row_frame 1 Hi)
    as (_ & _ & _ & _ & _ & _ & _ & _ & _ & H & _).
  exact H.
Defined.

Lemma append_empty (a b : string) :
  a +:+ b = EmptyString <-> a = EmptyString /\ b = EmptyString.
Proof.
  destruct a; simpl; split; try done.
  - by intros [_ ->].
  - by intros [? _].
Qed.

Lemma nonempty_true s : nonempty s = true <-> s <> EmptyString.
Proof. destruct s; simpl; split; done. Qed.

Lemma nonempty_false s : nonempty s = false <-> s = EmptyString.
Proof. destruct s; simpl; split; done. Qed.

Lemma tag_nonempty name cls body : tag name cls body <> EmptyString.
Proof. unfold tag. simpl. done. Qed.

Lemma fmt_cents_empty rt x : _fmt_cents rt x = EmptyString <-> x = None.
Proof.
  destruct x as [v|]; simpl; [|done]. rewrite append_empty. split; [|done].
  by intros [_ ?].
Qed.

Lemma fmt_money_empty rt x : _fmt_money rt x = EmptyString <-> x = None.
Proof. destruct x as [v|]; simpl; split; done. Qed.

Lemma fmt_pnl_line_empty rt cash pct01 :
  _fmt_pnl_line rt cash pct01 = EmptyString <-> cash = None /\ pct01 = None.
Proof.
  unfold _fmt_pnl_line. destruct cash as [c|], pct01 as [p|]; simpl;
    (split; [try done | try (by intros [? ?])]).
Qed.

Lemma titles_at rt df i r :
  rows df !! i = Some r ->
  iloc None (titles rt df) i
  = if has_column df title_col then astype_str1 rt (get r title_col)
    else text_at rt df "marketQuestion" r.
Proof.
  intros H. unfold titles, text_at.
  destruct (has_column df title_col); [by apply iloc_astype_str|].
  destruct (has_column df "marketQuestion"); [by apply iloc_astype_str|].
  apply iloc_replicate. by eapply row_lt.
Qed.

Lemma slugs_at rt df i r :
  rows df !! i = Some r ->
  iloc None (slugs rt df) i
  = if has_column df slug_col then astype_str1 rt (get r slug_col) else None.
Proof.
  intros H. unfold slugs. destruct (has_column df slug_col).
  - by apply iloc_astype_str.
  - apply iloc_replicate. by eapply row_lt.
Qed.

Lemma logos_at rt df i r :
  rows df !! i = Some r ->
  iloc None (logos rt df) i = text_at rt df logo_col r.
Proof.
  intros H. unfold logos, text_at. destruct (has_column df logo_col).
  - by apply iloc_astype_str.
  - apply iloc_replicate. by eapply row_lt.
Qed.

Lemma side_at rt df i r :
  rows df !! i = Some r ->
  iloc None (side rt df) i = text_at rt df side_col r.
Proof.
  intros H. unfold side, text_at. destruct (has_column df side_col).
  - by apply iloc_astype_str.
  - apply iloc_replicate. by eapply row_lt.
Qed.

Lemma guarded_numeric_at rt df c i r :
  rows df !! i = Some r ->
  iloc None (if has_column df c then to_numeric rt (df_col df c)
             else nan_series (len df)) i
  = number_at rt df c r.
Proof.
  intros H. unfold number_at. destruct (has_column df c).
  - by apply iloc_to_numeric.
  - apply iloc_replicate. by eapply row_lt.
Qed.

(** The MARKET cell of a row is made from that row's record. *)
Lemma market_cell_at rt df i r mc :
  rows df !! i = Some r ->
  market_cells rt df !! i = Some mc ->
  mc = market_cell_of rt
         (if has_column df title_col then astype_str1 rt (get r title_col)
          else text_at rt df "marketQuestion" r)
         (if has_column df slug_col
          then astype_str1 rt (get r slug_col) else None)
         (text_at rt df logo_col r)
         (text_at rt df side_col r)
         (number_at rt df size_col r)
         (iloc None (_to_cents rt df avg_price_col) i).
Proof.
  intros Hr Hmc. unfold market_cells in Hmc.
  apply lookup_indexed_Some in Hmc as [_ ->].
  rewrite (titles_at rt df i r Hr), (slugs_at rt df i r Hr),
    (logos_at rt df i r Hr), (side_at rt df i r Hr).
  unfold shares. by rewrite (guarded_numeric_at rt df size_col i r Hr).
Qed.

Lemma display_at rt df i d :
  display rt df !! i = Some d ->
  exists mc vc x,
    market_cells rt df !! i = Some mc /\ value_cells rt df !! i = Some vc
    /\ _to_cents rt df avg_price_col !! i = Some x
    /\ d = {| MARKET := mc;
              AVG := _fmt_cents rt x;
              CURRENT := _fmt_cents rt (iloc None (_to_cents rt df cur_price_col) i);
              VALUE := vc |}.
Proof.
  intros Hd. unfold display in Hd.
  apply lookup_indexed_Some in Hd as [Hlt ->].
  destruct (lookup_lt_is_Some_2 (market_cells rt df) i) as [mc Hmc];
    [by rewrite length_market_cells|].
  destruct (lookup_lt_is_Some_2 (value_cells rt df) i) as [vc Hvc];
    [by rewrite length_value_cells|].
  destruct (lookup_lt_is_Some_2 (_to_cents rt df avg_price_col) i) as [x Hx];
    [by rewrite length_to_cents|].
  destruct (lookup_lt_is_Some_2 (_to_cents rt df cur_price_col) i) as [y Hy];
    [by rewrite length_to_cents|].
  exists mc, vc, x. repeat (split; [done|]).
  unfold iloc. rewrite Hmc, Hvc, !list_lookup_fmap, Hx, Hy. done.
Qed.

(** X2.  The title of a row is a link to
    [https://polymarket.com/market/<slug>] exactly when the frame has a slug
    column and the record's slug is a text other than the empty one and
    other than [nan] in any case; a record that carries no slug, also next
    to records that do, gets the title as plain text. *)
Theorem title_link_spec (rt : runtime) (df : DataFrame) (i : nat)
    (r : gmap string cell) (mc : market_cell) :
  rows df !! i = Some r ->
  market_cells rt df !! i = Some mc ->
  (has_column df slug_col = false \/ get r slug_col = NaN ->
     title_html mc = title_plain (title_of rt df r))
  /\ (forall s, has_column df slug_col = true -> get r slug_col = Str s ->
        lower s <> "nan" -> s <> EmptyString ->
        title_html mc = title_link s (title_of rt df r))
  /\ (forall s, get r slug_col = Str s -> lower s = "nan" \/ s = EmptyString ->
        title_html mc = title_plain (title_of rt df r)).
Proof.
  intros Hr Hmc. rewrite (market_cell_at rt df i r mc Hr Hmc).
  unfold market_cell_of, title_plain, title_link, title_of.
  cbn [title_html default from_option id].
  set (title_txt := match (if has_column df title_col
                           then astype_str1 rt (get r title_col)
                           else text_at rt df "marketQuestion" r)
                    with Some t => t | None => EmptyString end).
  split; [|split].
  - intros [Hcol|Hna].
    + by rewrite Hcol.
    + destruct (has_column df slug_col); [|done]. rewrite Hna.
      cbn [astype_str1]. by destruct (astype_keeps_missing rt).
  - intros s Hcol Hs Hnan Hne. rewrite Hcol, Hs. cbn [astype_str1].
    apply String.eqb_neq in Hnan. rewrite Hnan.
    apply nonempty_true in Hne. by rewrite Hne.
  - intros s Hs Hbad. destruct (has_column df slug_col); [|done].
    rewrite Hs. cbn [astype_str1]. destruct Hbad as [Hnan| ->].
    + apply String.eqb_eq in Hnan. by rewrite Hnan.
    + done.
Qed.

Lemma title_link_spec_witness :
  rows row_frame !! 0%nat
  = Some {[ "title" := Str "Rain"; "marketSlug" := Str "will-it-rain";
            "size" := Num 12.5; "avgPrice" := Num 0.63; "curPrice" := Num 0.7;
            "currentValue" := Num 10; "cashPnl" := Num 1.5;
            "percentPnl" := Num 0.2 ]}
  /\ title_html <$> market_cells SampleRuntime.py row_frame !! 0%nat
     = Some (title_link "will-it-rain" "Rain").
Proof.
  assert (rows row_frame !! 0%nat
          = Some {[ "title" := Str "Rain"; "marketSlug" := Str "will-it-rain";
                    "size" := Num 12.5; "avgPrice" := Num 0.63;
                    "curPrice" := Num 0.7; "currentValue" := Num 10;
                    "cashPnl" := Num 1.5; "percentPnl" := Num 0.2 ]}) as Hr
    by (vm_compute; reflexivity).
  split; [exact Hr|].
  destruct (market_cells SampleRuntime.py row_frame !! 0%nat) as [mc|] eqn:Hmc;
    [|vm_compute in Hmc; discriminate Hmc].
  simpl. f_equal.
  destruct (title_link_spec SampleRuntime.py row_frame 0 _ mc Hr Hmc)
    as (_ & Hlink & _).
  rewrite (Hlink "will-it-rain"); [reflexivity| | | |];
    vm_compute; first [reflexivity | discriminate].
Defined.

Lemma nonempty_append_r a b : nonempty b = true -> nonempty (a +:+ b) = true.
Proof. intros H. destruct a; simpl; done. Qed.

(** The position line of a MARKET cell, by what the row holds. *)
Lemma position_html_of rt title_txt slug logo side_raw share avg :
  position_html (market_cell_of rt title_txt slug logo side_raw share avg)
  = match share, avg with
    | Some s, Some a =>
        tag "div" "position-info"
          ((format_float rt ",.1f" s +:+ " shares") +:+ " "
             +:+ "at " +:+ _fmt_cents rt (Some a))
    | Some s, None =>
        tag "div" "position-info" (format_float rt ",.1f" s +:+ " shares")
    | None, Some a =>
        tag "div" "position-info" ("at " +:+ _fmt_cents rt (Some a))
    | None, None => EmptyString
    end.
Proof.
  unfold market_cell_of. cbn [position_html].
  destruct share as [s|], avg as [a|]; cbn [notna app join_sp]; try done.
  - rewrite nonempty_append_r; [done|]. by apply nonempty_append_r.
  - by rewrite nonempty_append_r.
Qed.

(** X3.  For every row of the report, the AVG (CURRENT) cell is empty
    exactly when the record's [avgPrice] ([curPrice]) is absent or does not
    parse; the position line of the MARKET cell is left out exactly when
    both the share count and the average price are absent; and when the
    average price is there, the price the position line shows is the text
    of the AVG cell of the same row. *)
Theorem price_cells_spec (rt : runtime) (df : DataFrame) (i : nat)
    (r : gmap string cell) (d : display_row) :
  rows df !! i = Some r ->
  display rt df !! i = Some d ->
  (AVG d = EmptyString <-> number_at rt df avg_price_col r = None)
  /\ (CURRENT d = EmptyString <-> number_at rt df cur_price_col r = None)
  /\ (position_html (MARKET d) = EmptyString
      <-> number_at rt df size_col r = None
          /\ number_at rt df avg_price_col r = None)
  /\ (number_at rt df avg_price_col r <> None ->
      position_html (MARKET d)
      = tag "div" "position-info"
          (match number_at rt df size_col r with
           | Some s =>
               (format_float rt ",.1f" s +:+ " shares") +:+ " "
                 +:+ "at " +:+ AVG d
           | None => "at " +:+ AVG d
           end)).
Proof.
  intros Hr Hd.
  destruct (display_at rt df i d Hd) as (mc & vc & x & Hmc & Hvc & Hx & ->).
  cbn [AVG CURRENT MARKET].
  destruct (to_cents_at rt df avg_price_col i r Hr) as (x' & Hx' & Havg).
  rewrite Hx in Hx'. injection Hx' as <-.
  destruct (to_cents_at rt df cur_price_col i r Hr) as (y & Hy & Hcur).
  rewrite (market_cell_at rt df i r mc Hr Hmc), position_html_of.
  unfold iloc. rewrite Hx, Hy. cbn [default from_option id].
  split; [by rewrite fmt_cents_empty|].
  split; [by rewrite fmt_cents_empty|].
  destruct (number_at rt df size_col r) as [s|]; destruct x as [a|].
  - split; [|done]. split; [intros H; by apply tag_nonempty in H|by intros [? _]].
  - split.
    + split; [intros H; by apply tag_nonempty in H|by intros [? _]].
    + intros Hne. exfalso. apply Hne. by apply Havg.
  - split; [|done]. split; [intros H; by apply tag_nonempty in H|].
    intros [_ Hn]. by apply Havg in Hn.
  - split.
    + split; [intros _|done]. split; [done|]. by apply Havg.
    + intros Hne. exfalso. apply Hne. by apply Havg.
Qed.

Lemma price_cells_spec_witness :
  rows row_frame !! 1%nat
  = Some {[ "title" := Str "Bare"; "currentValue" := Num 5 ]}
  /\ number_at SampleRuntime.py row_frame avg_price_col
       {[ "title" := Str "Bare"; "currentValue" := Num 5 ]} = None
  /\ AVG <$> display SampleRuntime.py row_frame !! 1%nat = Some EmptyString.
Proof.
  assert (rows row_frame !! 1%nat
          = Some {[ "title" := Str "Bare"; "currentValue" := Num 5 ]}) as Hr
    by (vm_compute; reflexivity).
  assert (number_at SampleRuntime.py row_frame avg_price_col
            {[ "title" := Str "Bare"; "currentValue" := Num 5 ]} = None) as Hn
    by (vm_compute; reflexivity).
  split; [exact Hr|]. split; [exact Hn|].
  destruct (display SampleRuntime.py row_frame !! 1%nat) as [d|] eqn:Hd;
    [|vm_compute in Hd; discriminate Hd].
  simpl. f_equal.
  exact (proj2 (proj1 (price_cells_spec SampleRuntime.py row_frame 1 _ d Hr Hd)) Hn).
Defined.

Lemma nonempty_fmt_pnl_line rt cash pct01 :
  nonempty (_fmt_pnl_line rt cash pct01) = negb (isna cash && isna pct01).
Proof.
  unfold _fmt_pnl_line. by destruct cash as [c|], pct01 as [p|].
Qed.

(** X4.  The VALUE cell of a row starts with the money text of that
    record's current value, and is followed by the P&L line exactly when
    the record has a cash P&L or a percentage P&L that parses; the
    percentage it shows is absent exactly when the record's is. *)
Theorem value_cell_spec (rt : runtime) (df : DataFrame) (i : nat)
    (r : gmap string cell) (d : display_row) :
  rows df !! i = Some r ->
  display rt df !! i = Some d ->
  exists pct01,
    (pct01 = None <-> number_at rt df pct_pnl_col r = None)
    /\ VALUE d
       = tag "div" "val" (_fmt_money rt (number_at rt df value_col r))
         +:+ (if isna (number_at rt df cash_pnl_col r) && isna pct01
              then EmptyString
              else tag "div" "sub"
                     (_fmt_pnl_line rt (number_at rt df cash_pnl_col r) pct01)).
Proof.
  intros Hr Hd.
  destruct (display_at rt df i d Hd) as (mc & vc & x & Hmc & Hvc & Hx & ->).
  cbn [VALUE].
  destruct (to_pct01_at rt df pct_pnl_col i r Hr) as (p & Hp & Hpct).
  exists p. split; [exact Hpct|].
  unfold value_cells in Hvc. apply lookup_indexed_Some in Hvc as [_ ->].
  unfold value, cash.
  rewrite !(guarded_numeric_at rt df _ i r Hr).
  unfold iloc. rewrite Hp. cbn [default from_option id].
  f_equal. rewrite nonempty_fmt_pnl_line.
  by destruct (isna (number_at rt df cash_pnl_col r) && isna p).
Qed.

Lemma value_cell_spec_witness :
  rows row_frame !! 1%nat
  = Some {[ "title" := Str "Bare"; "currentValue" := Num 5 ]}
  /\ VALUE <$> display SampleRuntime.py row_frame !! 1%nat
     = Some (tag "div" "val" "$5.00").
Proof.
  assert (rows row_frame !! 1%nat
          = Some {[ "title" := Str "Bare"; "currentValue" := Num 5 ]}) as Hr
    by (vm_compute; reflexivity).
  split; [exact Hr|].
  destruct (display SampleRuntime.py row_frame !! 1%nat) as [d|] eqn:Hd;
    [|vm_compute in Hd; discriminate Hd].
  simpl. f_equal.
  destruct (value_cell_spec SampleRuntime.py row_frame 1 _ d Hr Hd)
    as (p & Hp & ->).
  rewrite (proj2 Hp); [|vm_compute; reflexivity].
  vm_compute. reflexivity.
Defined.

(** ** The table body as a whole *)

Lemma data_rows_app a b : data_rows (a ++ b) = data_rows a ++ data_rows b.
Proof. unfold data_rows. apply omap_app. Qed.

Lemma separator_count_app a b :
  separator_count (a ++ b) = (separator_count a + separator_count b)%nat.
Proof.
  induction a as [|[|row] a IH]; simpl; [done| |done]. by rewrite IH.
Qed.

Lemma body_length_split body :
  length body = (length (data_rows body) + separator_count body)%nat.
Proof.
  induction body as [|[|row] body IH]; simpl; [done| |]; rewrite IH; lia.
Qed.

Lemma data_rows_rows_html l : data_rows (rows_html l) = l.
Proof.
  induction l as [|x l IH] using rev_ind; [done|].
  unfold rows_html in *. rewrite rows_html_from_snoc, !data_rows_app, IH.
  by destruct (separator_due _).
Qed.

(** X5.  The data rows of the table body are, in order, the rows of the
    display frame, one per surviving record, and the body holds
    [(n - 1) / 5] separators for [n] rows. *)
Theorem table_body_rows (rt : runtime) (df : DataFrame) :
  let body := tbody (df_to_pretty_html_marketstyle rt df) in
  let n := len (sort_and_filter rt df) in
  data_rows body = display rt (sort_and_filter rt df)
  /\ length (data_rows body) = n
  /\ separator_count body = ((n - 1) / 5)%nat.
Proof.
  intros body n. subst body n.
  unfold df_to_pretty_html_marketstyle, report_of. cbn [tbody].
  pose proof (data_rows_rows_html (display rt (sort_and_filter rt df))) as Hd.
  pose proof (length_display rt (sort_and_filter rt df)) as Hl.
  split; [exact Hd|]. split; [by rewrite Hd|].
  pose proof (body_length_split (rows_html (display rt (sort_and_filter rt df))))
    as Hs.
  rewrite rows_html_length, Hd, Hl in Hs. lia.
Qed.

(** ** Sorting and filtering twice *)

Lemma coerce_value_idem rt r :
  coerce_value rt (coerce_value rt r) = coerce_value rt r.
Proof.
  unfold coerce_value at 1. rewrite currentValue_coerce.
  unfold coerce_value. apply insert_insert_eq.
Qed.

Lemma filter_all {A} (P : A -> Prop) `{forall x, Decision (P x)} (l : list A) :
  (forall x, x ∈ l -> P x) -> filter P l = l.
Proof.
  induction l as [|x l IH]; intros Hall; [done|].
  rewrite filter_cons_True by (apply Hall; apply list_elem_of_here).
  f_equal. apply IH. intros y Hy. apply Hall. by apply list_elem_of_further.
Qed.

Lemma filter_length_le {A} (P : A -> Prop) `{forall x, Decision (P x)} (l : list A) :
  (length (filter P l) <= length l)%nat.
Proof. apply length_filter. Qed.

(** X6.  Sorting and filtering a frame that was already sorted and
    filtered keeps the same rows (up to the order of rows of equal value)
    and the same columns; the step never adds a row. *)
Theorem sort_and_filter_again (rt : runtime) (df : DataFrame) :
  rows (sort_and_filter rt (sort_and_filter rt df)) ≡ₚ rows (sort_and_filter rt df)
  /\ columns (sort_and_filter rt (sort_and_filter rt df))
     = columns (sort_and_filter rt df)
  /\ (len (sort_and_filter rt df) <= len df)%nat.
Proof.
  destruct (has_column df value_col) eqn:Hcol.
  - assert (has_column (sort_and_filter rt df) value_col = true) as Hcol'
      by (by rewrite has_column_sort_and_filter).
    pose proof (sort_and_filter_perm rt df Hcol) as Hp.
    split; [|split].
    + rewrite (sort_and_filter_perm rt _ Hcol').
      assert (forall r', r' ∈ rows (sort_and_filter rt df) ->
                keeps rt r' /\ coerce_value rt r' = r') as Hfix.
      { intros r' Hr'. rewrite Hp in Hr'.
        apply list_elem_of_fmap in Hr' as (r & -> & Hr).
        apply list_elem_of_filter in Hr as [Hk _]. split.
        - unfold keeps. by rewrite currentValue_coerce.
        - apply coerce_value_idem. }
      rewrite filter_all by (intros x Hx; by apply Hfix).
      assert (coerce_value rt <$> rows (sort_and_filter rt df)
              = rows (sort_and_filter rt df)) as ->; [|done].
      rewrite <- (list_fmap_id (rows (sort_and_filter rt df))) at 2.
      apply list_fmap_ext.
      intros k x Hx. apply Hfix. by eapply list_elem_of_lookup_2.
    + apply set_eq. intros c. by rewrite !columns_sort_and_filter.
    + unfold len. rewrite Hp, length_fmap. apply length_filter.
  - rewrite !(sort_and_filter_rows_hasnot rt df Hcol). repeat split; done.
Qed.

(** ** The title mapping of the driver *)

Section TitleMapping.

Variable rt : runtime.

Lemma get_with_title_ne r c : c <> "title" -> get (with_title r) c = get r c.
Proof. intros H. unfold with_title. by rewrite get_insert_ne. Qed.

Lemma get_with_title r : get (with_title r) "title" = get r "marketQuestion".
Proof. unfold with_title. by rewrite get_insert_eq. Qed.

Lemma coerce_with_title r :
  coerce_value rt (with_title r) = with_title (coerce_value rt r).
Proof.
  unfold coerce_value, currentValue.
  rewrite (get_with_title_ne r value_col) by done.
  unfold with_title at 2. rewrite get_insert_ne by done.
  unfold with_title. by apply insert_insert_ne.
Qed.

Lemma float_at_with_title r :
  float_at value_col (with_title r) = float_at value_col r.
Proof. unfold float_at. by rewrite get_with_title_ne. Qed.

Lemma filter_with_title (l : list (gmap string cell)) :
  filter (fun r => gt0 (float_at value_col r) = true) (with_title <$> l)
  = with_title <$> filter (fun r => gt0 (float_at value_col r) = true) l.
Proof.
  induction l as [|r l IH]; [done|].
  rewrite fmap_cons, !filter_cons, float_at_with_title.
  destruct (decide (gt0 (float_at value_col r) = true)); simpl; by rewrite IH.
Qed.

Lemma insert_desc_with_title r l :
  insert_desc (float_at value_col) (with_title r) (with_title <$> l)
  = with_title <$> insert_desc (float_at value_col) r l.
Proof.
  induction l as [|y l IH]; [done|].
  rewrite fmap_cons. simpl. rewrite !float_at_with_title.
  destruct (desc_leb _ _); [done|]. rewrite fmap_cons. f_equal. exact IH.
Qed.

Lemma sort_with_title l :
  foldr (insert_desc (float_at value_col)) [] (with_title <$> l)
  = with_title <$> foldr (insert_desc (float_at value_col)) [] l.
Proof.
  induction l as [|r l IH]; [done|].
  rewrite fmap_cons. simpl. by rewrite IH, insert_desc_with_title.
Qed.

(** Two frames with the same rows up to the copied title. *)
Variables X' X : DataFrame.
Hypothesis rows_X' : rows X' = with_title <$> rows X.
Hypothesis cols_X' : columns X' = {["title"]} ∪ columns X.
Hypothesis no_title : has_column X "title" = false.
Hypothesis has_question : has_column X "marketQuestion" = true.

Lemma len_X' : len X' = len X.
Proof. unfold len. by rewrite rows_X', length_fmap. Qed.

Lemma has_column_X' c : c <> "title" -> has_column X' c = has_column X c.
Proof.
  intros H. unfold has_column. apply bool_decide_ext.
  rewrite cols_X', elem_of_union, elem_of_singleton. split; [|auto].
  by intros [?|?].
Qed.

Lemma has_title_X' : has_column X' "title" = true.
Proof.
  apply has_column_true. rewrite cols_X', elem_of_union, elem_of_singleton. auto.
Qed.

Lemma df_col_X' c : c <> "title" -> df_col X' c = df_col X c.
Proof.
  intros H. unfold df_col. rewrite rows_X', <- list_fmap_compose.
  apply list_fmap_ext. intros k r _. simpl. by apply get_with_title_ne.
Qed.

Lemma df_col_title_X' : df_col X' "title" = df_col X "marketQuestion".
Proof.
  unfold df_col. rewrite rows_X', <- list_fmap_compose.
  apply list_fmap_ext. intros k r _. simpl. apply get_with_title.
Qed.

Lemma sort_and_filter_X' :
  rows (sort_and_filter rt X') = with_title <$> rows (sort_and_filter rt X)
  /\ columns (sort_and_filter rt X') = {["title"]} ∪ columns (sort_and_filter rt X).
Proof.
  destruct (has_column X value_col) eqn:Hv.
  - assert (has_column X' value_col = true) as Hv'
      by (by rewrite has_column_X').
    split.
    + rewrite !sort_and_filter_rows_has by done.
      rewrite rows_X', <- sort_with_title, <- filter_with_title.
      do 2 f_equal. rewrite <- !list_fmap_compose.
      apply list_fmap_ext. intros k r _. simpl. apply coerce_with_title.
    + apply set_eq. intros c.
      rewrite elem_of_union, !columns_sort_and_filter, cols_X', elem_of_union.
      done.
  - assert (has_column X' value_col = false) as Hv'
      by (by rewrite has_column_X').
    by rewrite !sort_and_filter_rows_hasnot.
Qed.

Lemma titles_X' : titles rt X' = titles rt X.
Proof.
  unfold titles, title_col. rewrite has_title_X', no_title, has_question.
  by rewrite df_col_title_X'.
Qed.

Lemma to_cents_X' c : c <> "title" -> _to_cents rt X' c = _to_cents rt X c.
Proof.
  intros H. unfold _to_cents.
  by rewrite has_column_X', df_col_X', len_X'.
Qed.

Lemma to_pct01_X' c : c <> "title" -> _to_pct01 rt X' c = _to_pct01 rt X c.
Proof.
  intros H. unfold _to_pct01.
  by rewrite has_column_X', df_col_X', len_X'.
Qed.

Lemma market_cells_X' : market_cells rt X' = market_cells rt X.
Proof.
  unfold market_cells, slugs, logos, side, shares.
  rewrite titles_X', to_cents_X', len_X' by done.
  by rewrite !has_column_X', !df_col_X'.
Qed.

Lemma value_cells_X' : value_cells rt X' = value_cells rt X.
Proof.
  unfold value_cells, value, cash.
  rewrite to_pct01_X', len_X' by done.
  by rewrite !has_column_X', !df_col_X'.
Qed.

Lemma report_of_X' : report_of rt X' = report_of rt X.
Proof.
  unfold report_of, display, value, cash.
  rewrite market_cells_X', value_cells_X', !to_cents_X', len_X' by done.
  by rewrite !has_column_X', !df_col_X'.
Qed.

End TitleMapping.

(** X7.  The title mapping of the driver (copying [marketQuestion] into a
    missing [title] column) never changes the report: the report function
    falls back on [marketQuestion] itself. *)
Theorem title_mapping_keeps_report (rt : runtime) (df : DataFrame) :
  df_to_pretty_html_marketstyle rt (DeliverySpec.titled df)
  = df_to_pretty_html_marketstyle rt df.
Proof.
  unfold DeliverySpec.titled.
  destruct (has_column df "title") eqn:Ht; [done|].
  destruct (has_column df "marketQuestion") eqn:Hq; [|done].
  cbn [negb andb].
  set (df' := set_column df "title" (df_col df "marketQuestion")).
  assert (rows df' = with_title <$> rows df) as Hrows.
  { unfold df', set_column, df_col, with_title. cbn [rows].
    induction (rows df) as [|r l IH]; [done|].
    rewrite !fmap_cons. simpl. f_equal. exact IH. }
  assert (columns df' = {["title"]} ∪ columns df) as Hcols by done.
  destruct (sort_and_filter_X' rt df' df Hrows Hcols) as [Hr Hc].
  unfold df_to_pretty_html_marketstyle.
  apply (report_of_X' rt _ _ Hr Hc).
  - by rewrite has_column_sort_and_filter.
  - by rewrite has_column_sort_and_filter.
Qed.

(** ** The driver: configuration, runs without delivery, failed runs *)

Module DriverFacts.
Import Delivery DeliverySpec DeliveryFacts.

(** X8.  [GmailSender()] leaves the world as it is and succeeds exactly when
    [SMTP_PORT] (587 by default) reads as an integer and both credentials
    are non-empty; the configuration then holds the environment's values.
    With a readable port, a missing [GMAIL_EMAIL] is reported first, and a
    missing [GMAIL_APP_PASSWORD] only when the address is set. *)
Theorem GmailSender_spec (env : environment) (w : world) :
  fst (GmailSender env w) = w
  /\ ((exists config, snd (GmailSender env w) = Return config)
      <-> is_Some (py_int env (getenv_default env "SMTP_PORT" "587"))
          /\ credentials_set env = true)
  /\ (forall config, snd (GmailSender env w) = Return config ->
        smtp_server config = getenv_default env "SMTP_SERVER" "smtp.gmail.com"
        /\ Some (smtp_port config)
           = py_int env (getenv_default env "SMTP_PORT" "587")
        /\ sender_email config = getenv_default env "GMAIL_EMAIL" EmptyString
        /\ sender_password config
           = getenv_default env "GMAIL_APP_PASSWORD" EmptyString)
  /\ (is_Some (py_int env (getenv_default env "SMTP_PORT" "587")) ->
      getenv_default env "GMAIL_EMAIL" EmptyString = EmptyString ->
      snd (GmailSender env w)
      = Raise (ValueError "GMAIL_EMAIL environment variable is required"))
  /\ (is_Some (py_int env (getenv_default env "SMTP_PORT" "587")) ->
      getenv_default env "GMAIL_EMAIL" EmptyString <> EmptyString ->
      getenv_default env "GMAIL_APP_PASSWORD" EmptyString = EmptyString ->
      snd (GmailSender env w)
      = Raise (ValueError "GMAIL_APP_PASSWORD environment variable is required")).
Proof.
  rewrite GmailSender_run. unfold credentials_set.
  destruct (py_int env (getenv_default env "SMTP_PORT" "587")) as [p|];
    cbn [fst snd].
  - destruct (getenv_default env "GMAIL_EMAIL" EmptyString) as [|c e] eqn:He;
      cbn [nonempty negb fst snd andb].
    + split; [done|]. split.
      { split; [by intros [? ?]|by intros [_ ?]]. }
      split; [done|]. split; [done|]. intros _ Hne. by destruct Hne.
    + destruct (getenv_default env "GMAIL_APP_PASSWORD" EmptyString) as [|c' e']
        eqn:Hp; cbn [nonempty negb fst snd andb].
      * split; [done|]. split.
        { split; [by intros [? ?]|by intros [_ ?]]. }
        split; [done|]. split; [done|]. done.
      * split; [done|]. split.
        { split; [intros _; split; [by eexists|done] | intros _; by eexists]. }
        split.
        { intros config [= <-]. cbn. done. }
        split; [done|]. done.
  - split; [done|]. split.
    { split; [by intros [? ?]|intros [[? ?] _]; done]. }
    split; [done|]. split; intros [? ?]; done.
Qed.

Lemma GmailSender_spec_witness :
  is_Some (py_int refusing (getenv_default refusing "SMTP_PORT" "587"))
  /\ credentials_set refusing = true
  /\ exists config, snd (GmailSender refusing world0) = Return config.
Proof.
  assert (is_Some (py_int refusing (getenv_default refusing "SMTP_PORT" "587")))
    as Hport by (vm_compute; eexists; reflexivity).
  assert (credentials_set refusing = true) as Hcred by reflexivity.
  split; [exact Hport|]. split; [exact Hcred|].
  exact (proj2 (proj1 (proj2 (GmailSender_spec refusing world0)))
           (conj Hport Hcred)).
Defined.

(** X9.  When delivery is not requested (the flag is off, or there is no
    recipient, or the recipient is the empty text) and the positions are
    fetched and the file written, the run returns the report path with
    [None], the report is on disk, and the trace holds the fetch and the
    write only: no SMTP session is opened. *)
Theorem no_delivery_requested (rt : runtime) (env : environment)
    (address html_path : string) (recipient : option string)
    (send_flag : bool) (data : list (gmap string cell)) (w : world) :
  http_get_json env (positions_url address) = Return data ->
  write_error env html_path = None ->
  send_flag = false \/ recipient = None \/ recipient = Some EmptyString ->
  create_and_send_report rt env address recipient send_flag html_path w
  = ({| files :=
          <[html_path := template env
              (df_to_pretty_html_marketstyle rt (titled (DataFrame_of data)))]>
            (files w);
        trace := trace w ++ [EvFetch (positions_url address); EvWrite html_path] |},
     Return (html_path, None)).
Proof.
  intros Hfetch Hwrite Hno.
  unfold create_and_send_report, bind at 1.
  rewrite (get_user_positions_run env address data) by done.
  fold (titled (DataFrame_of data)). unfold bind at 1.
  rewrite write_report_run by done. cbn [files trace].
  rewrite <- app_assoc. cbn [app].
  destruct Hno as [-> | [-> | ->]]; [destruct recipient| |];
    cbn [andb nonempty]; try reflexivity.
  by rewrite andb_false_r.
Qed.

Lemma no_delivery_requested_witness :
  http_get_json refusing (positions_url "0xabc") = Return chip_sample
  /\ write_error refusing "report.html" = None
  /\ snd (create_and_send_report SampleRuntime.py refusing "0xabc" None true
            "report.html" world0)
     = Return ("report.html", None).
Proof.
  assert (http_get_json refusing (positions_url "0xabc") = Return chip_sample)
    as Hfetch by reflexivity.
  assert (write_error refusing "report.html" = None) as Hwrite by reflexivity.
  split; [exact Hfetch|]. split; [exact Hwrite|].
  rewrite (no_delivery_requested SampleRuntime.py refusing "0xabc" "report.html"
             None true chip_sample world0 Hfetch Hwrite
             (or_intror (or_introl eq_refl))).
  reflexivity.
Defined.

(** X10.  When fetching the positions raises, the driver raises the same
    exception: no file is written and no SMTP session is opened, whatever
    delivery was asked for. *)
Theorem fetch_failure_is_raised (rt : runtime) (env : environment)
    (address html_path : string) (recipient : option string)
    (send_flag : bool) (e : exn) (w : world) :
  http_get_json env (positions_url address) = Raise e ->
  create_and_send_report rt env address recipient send_flag html_path w
  = ({| files := files w;
        trace := trace w ++ [EvFetch (positions_url address)] |}, Raise e).
Proof.
  intros He. unfold create_and_send_report, bind at 1.
  unfold get_user_positions, bind, log, lift.
  fold (positions_url address). by rewrite He.
Qed.

Lemma fetch_failure_is_raised_witness :
  http_get_json DeliverySamples.offline (positions_url "0xabc")
  = Raise (OSError (Some 101%Z) "Network is unreachable")
  /\ create_and_send_report SampleRuntime.py DeliverySamples.offline "0xabc"
       (Some "you@example.com") true "report.html" world0
     = ({| files := ∅; trace := [EvFetch (positions_url "0xabc")] |},
        Raise (OSError (Some 101%Z) "Network is unreachable")).
Proof.
  assert (http_get_json DeliverySamples.offline (positions_url "0xabc")
          = Raise (OSError (Some 101%Z) "Network is unreachable")) as He
    by reflexivity.
  split; [exact He|].
  exact (fetch_failure_is_raised SampleRuntime.py DeliverySamples.offline
           "0xabc" "report.html" (Some "you@example.com") true _ world0 He).
Defined.

(** X11.  When writing the report raises, the driver raises the same
    exception after the fetch and opens no SMTP session, whatever delivery
    was asked for.  No other file changes; the report file is as it was when
    it could not be opened, and holds what the failed write left in it
    otherwise. *)
Theorem write_failure_is_raised (rt : runtime) (env : environment)
    (address html_path : string) (recipient : option string)
    (send_flag : bool) (data : list (gmap string cell)) (e : exn) (w : world) :
  http_get_json env (positions_url address) = Return data ->
  write_error env html_path = Some e ->
  create_and_send_report rt env address recipient send_flag html_path w
  = ({| files := match write_residue env html_path with
                 | Some partial => <[html_path := partial]> (files w)
                 | None => files w
                 end;
        trace := trace w ++ [EvFetch (positions_url address)] |}, Raise e).
Proof.
  intros Hd He. unfold create_and_send_report, bind at 1.
  rewrite (get_user_positions_run env address data) by done.
  unfold bind at 1. rewrite write_report_fails with (e := e) by done.
  by destruct (write_residue env html_path).
Qed.

(** The disk fills up while the report is written: the run raises, and the
    report file is left empty. *)
Lemma write_failure_is_raised_witness :
  http_get_json DeliverySamples.disk_full (positions_url "0xabc")
  = Return chip_sample
  /\ write_error DeliverySamples.disk_full "report.html"
     = Some (OSError (Some 28%Z) "No space left on device")
  /\ create_and_send_report SampleRuntime.py DeliverySamples.disk_full "0xabc"
       (Some "you@example.com") true "report.html" world0
     = ({| files := {[ "report.html" := EmptyString ]};
           trace := [EvFetch (positions_url "0xabc")] |},
        Raise (OSError (Some 28%Z) "No space left on device")).
Proof.
  assert (http_get_json DeliverySamples.disk_full (positions_url "0xabc")
          = Return chip_sample) as Hd by reflexivity.
  assert (write_error DeliverySamples.disk_full "report.html"
          = Some (OSError (Some 28%Z) "No space left on device")) as He
    by reflexivity.
  split; [exact Hd|]. split; [exact He|].
  exact (write_failure_is_raised SampleRuntime.py DeliverySamples.disk_full
           "0xabc" "report.html" (Some "you@example.com") true _ _ world0 Hd He).
Defined.

End DriverFacts.

(** ** [GmailSender.send_email] with all its arguments *)

Module GmailFacts.
Import Delivery DeliverySpec DeliveryFacts Gmail.



Section Facts.

Variable env : environment.
Variable path_name : string -> string.
Variable stat_error : string -> option exn.
Variable read_error : string -> option exn.
Variable session_error : MIMEMultipart -> list string -> option exn.

Lemma given_list_addresses (a : option addresses) :
  (if given_list (to_list <$> a) then default [] (to_list <$> a) else [])
  = addresses_of a.
Proof. destruct a as [[s|[|s l]]|]; reflexivity. Qed.

Lemma text_parts_of_files (l : list (string * string)) :
  omap (fun p => match p with MIMEText b t => Some (b, t) | _ => None end)
       ((fun nc => MIMEFile nc.1 nc.2) <$> l) = [].
Proof. induction l as [|[n c] l IH]; [done|]. exact IH. Qed.

Lemma file_parts_of_files (l : list (string * string)) :
  omap (fun p => match p with MIMEFile n c => Some (n, c) | _ => None end)
       ((fun nc => MIMEFile nc.1 nc.2) <$> l) = l.
Proof.
  induction l as [|[n c] l IH]; [done|]. rewrite fmap_cons. cbn. by rewrite IH.
Qed.

Lemma attach_all_run message paths w :
  attach_all path_name stat_error read_error message paths w
  = (w, match first_stat_error stat_error paths with
        | Some e => Raise e
        | None =>
            Return {| headers := headers message;
                      payload := payload message
                        ++ ((fun nc => MIMEFile nc.1 nc.2)
                              <$> attachable path_name read_error w paths) |}
        end).
Proof.
  revert message. induction paths as [|p paths IH]; intros message.
  - simpl. unfold ret. rewrite app_nil_r. by destruct message.
  - cbn [attach_all first_stat_error]. unfold bind, _attach_file.
    destruct (stat_error p) as [e|]; [reflexivity|].
    unfold attachable in *. cbn [omap list_omap].
    destruct (files w !! p) as [content|]; [|apply IH].
    destruct (read_error p); [apply IH|].
    rewrite IH. destruct (first_stat_error stat_error paths); [done|].
    cbn [headers payload]. by rewrite <- app_assoc.
Qed.

(** What [prepare] answers: the exception that stops the message from being
    built, or the message and the recipients. *)
Lemma prepare_run config to_emails subject body_text body_html attachments
    cc_emails bcc_emails reply_to w :
  match build_error env stat_error attachments with
  | Some e =>
      prepare env path_name stat_error read_error config to_emails subject
        body_text body_html attachments cc_emails bcc_emails reply_to w
      = (w, Raise e)
  | None =>
      exists message,
        prepare env path_name stat_error read_error config to_emails subject
          body_text body_html attachments cc_emails bcc_emails reply_to w
        = (w, Return (message,
                      to_list to_emails ++ addresses_of cc_emails
                        ++ addresses_of bcc_emails))
        /\ headers message
           = [("Subject", subject);
              ("From", (if given (sender_name config)
                        then default EmptyString (sender_name config)
                        else "Polymarket Analysis")
                       +:+ " <" +:+ sender_email config +:+ ">");
              ("To", join ", " (to_list to_emails))]
             ++ (match addresses_of cc_emails with
                 | [] => []
                 | cc => [("Cc", join ", " cc)]
                 end)
             ++ (if given reply_to
                 then [("Reply-To", default EmptyString reply_to)] else [])
        /\ text_parts message
           = (if given body_text
              then [(default EmptyString body_text, "plain")] else [])
             ++ (if given body_html
                 then [(default EmptyString body_html, "html")]
                 else if given body_text then [] else [("(No content)", "plain")])
        /\ file_parts message
           = attachable path_name read_error w (default [] attachments)
  end.
Proof.
  unfold build_error, prepare, bind.
  destruct (mime_error env) as [e|]; [reflexivity|].
  unfold ret. cbv beta iota.
  rewrite !given_list_addresses.
  set (hs := _ ++ _ ++ _).
  set (ps := _ ++ _).
  assert (omap (fun p => match p with MIMEText b t => Some (b, t) | _ => None end) ps
          = (if given body_text
             then [(default EmptyString body_text, "plain")] else [])
            ++ (if given body_html
                then [(default EmptyString body_html, "html")]
                else if given body_text then [] else [("(No content)", "plain")]))
    as Htext.
  { subst ps. by destruct (given body_text), (given body_html). }
  assert (omap (fun p => match p with MIMEFile n c => Some (n, c) | _ => None end) ps
          = []) as Hfile.
  { subst ps. by destruct (given body_text), (given body_html). }
  assert (hs = [("Subject", subject);
          ("From", (if given (sender_name config)
                    then default EmptyString (sender_name config)
                    else "Polymarket Analysis")
                   +:+ " <" +:+ sender_email config +:+ ">");
          ("To", join ", " (to_list to_emails))]
         ++ (match addresses_of cc_emails with
             | [] => []
             | cc => [("Cc", join ", " cc)]
             end)
         ++ (if given reply_to
             then [("Reply-To", default EmptyString reply_to)] else []))
    as Hhs.
  { subst hs. by destruct cc_emails as [[s|[|s l]]|]. }
  destruct (given_list attachments) eqn:Hatt.
  - rewrite attach_all_run.
    destruct (first_stat_error stat_error (default [] attachments)) as [e|];
      [reflexivity|].
    eexists. split; [reflexivity|].
    cbn [headers]. split; [exact Hhs|].
    unfold text_parts, file_parts. cbn [payload].
    rewrite !omap_app, Htext, Hfile, text_parts_of_files, file_parts_of_files.
    split; [by rewrite app_nil_r|]. done.
  - assert (default [] attachments = []) as ->
      by (by destruct attachments as [[|? ?]|]).
    cbn [first_stat_error]. eexists. split; [reflexivity|].
    cbn [headers]. split; [exact Hhs|].
    unfold text_parts, file_parts. cbn [payload]. rewrite Htext, Hfile.
    split; [done|]. done.
Qed.

Lemma gmail_send_message_run message recipients w :
  Gmail._send_message session_error message recipients w
  = ({| files := files w; trace := trace w ++ [EvSmtp recipients] |},
     Return (delivered session_error message recipients)).
Proof.
  unfold Gmail._send_message, delivered, try_except, bind, log.
  by destruct (session_error message recipients).
Qed.

(** A run of [send_email]: no session when the message cannot be built, one
    session for the message and all the recipients otherwise. *)
Lemma gmail_send_email_run config to_emails subject body_text body_html
    attachments cc_emails bcc_emails reply_to w :
  match build_error env stat_error attachments with
  | Some _ =>
      Gmail.send_email env path_name stat_error read_error session_error config
        to_emails subject body_text body_html attachments cc_emails bcc_emails
        reply_to w
      = (w, Return false)
  | None =>
      exists message,
        prepare env path_name stat_error read_error config to_emails subject
          body_text body_html attachments cc_emails bcc_emails reply_to w
        = (w, Return (message,
                      to_list to_emails ++ addresses_of cc_emails
                        ++ addresses_of bcc_emails))
        /\ Gmail.send_email env path_name stat_error read_error session_error
             config to_emails subject body_text body_html attachments cc_emails
             bcc_emails reply_to w
           = ({| files := files w;
                 trace := trace w
                          ++ [EvSmtp (to_list to_emails ++ addresses_of cc_emails
                                        ++ addresses_of bcc_emails)] |},
              Return (delivered session_error message
                        (to_list to_emails ++ addresses_of cc_emails
                           ++ addresses_of bcc_emails)))
  end.
Proof.
  pose proof (prepare_run config to_emails subject body_text body_html
                attachments cc_emails bcc_emails reply_to w) as Hp.
  destruct (build_error env stat_error attachments) as [e|].
  - unfold Gmail.send_email, try_except, bind. by rewrite Hp.
  - destruct Hp as (message & Hrun & _). exists message. split; [exact Hrun|].
    unfold Gmail.send_email, try_except, bind. rewrite Hrun. cbn [fst snd].
    by rewrite gmail_send_message_run.
Qed.


(** X13.  When the message can be built, the message [send_email] hands to
    the SMTP session has these parts: the plain text when it is given and
    not empty, then the HTML when it is given and not empty, and the text
    [(No content)] when neither is, so that there is always a text part;
    then one file part for each attachment that is on disk and can be read,
    in the order given.  An attachment that is not there or cannot be read
    is passed over. *)
Theorem message_parts (config : SMTPConfig) (to_emails : addresses)
    (subject : string) (body_text body_html : option string)
    (attachments : option (list string))
    (cc_emails bcc_emails : option addresses) (reply_to : option string)
    (w : world) :
  build_error env stat_error attachments = None ->
  exists message rcpts,
    Gmail.send_email env path_name stat_error read_error session_error config
      to_emails subject body_text body_html attachments cc_emails bcc_emails
      reply_to w
    = Gmail._send_message session_error message rcpts w
    /\ snd (Gmail._send_message session_error message rcpts w)
       = Return (delivered session_error message rcpts)
    /\ text_parts message
       = (if given body_text
          then [(default EmptyString body_text, "plain")] else [])
         ++ (if given body_html
             then [(default EmptyString body_html, "html")]
             else if given body_text then [] else [("(No content)", "plain")])
    /\ file_parts message
       = attachable path_name read_error w (default [] attachments)
    /\ length (payload message)
       = (length (text_parts message) + length (file_parts message))%nat
    /\ text_parts message <> [].
Proof.
  intros Hbuild.
  pose proof (prepare_run config to_emails subject body_text body_html
                attachments cc_emails bcc_emails reply_to w) as Hp.
  rewrite Hbuild in Hp. destruct Hp as (message & Hrun & _ & Ht & Hf).
  exists message, (to_list to_emails ++ addresses_of cc_emails
                     ++ addresses_of bcc_emails). split.
  { unfold Gmail.send_email, try_except, bind. rewrite Hrun. cbn [fst snd].
    rewrite !gmail_send_message_run. reflexivity. }
  split; [by rewrite gmail_send_message_run|].
  split; [exact Ht|]. split; [exact Hf|].
  split.
  - unfold text_parts, file_parts. clear.
    induction (payload message) as [|[b t|n c] l IH]; cbn; [done| |]; lia.
  - rewrite Ht. by destruct (given body_text), (given body_html).
Qed.

(** X14.  [send_email], with all its arguments, never raises and never
    touches the files.  When the message cannot be built, because building
    the headers and text parts raises or the existence test of an
    attachment does, it answers [False] and opens no SMTP session.
    Otherwise it opens one session for all the recipients and answers
    whether that session succeeded. *)
Theorem send_email_outcome (config : SMTPConfig) (to_emails : addresses)
    (subject : string) (body_text body_html : option string)
    (attachments : option (list string))
    (cc_emails bcc_emails : option addresses) (reply_to : option string)
    (w : world) :
  let envelope := to_list to_emails ++ addresses_of cc_emails
                    ++ addresses_of bcc_emails in
  let run := Gmail.send_email env path_name stat_error read_error session_error
               config to_emails subject body_text body_html attachments
               cc_emails bcc_emails reply_to w in
  (exists b, snd run = Return b)
  /\ files (fst run) = files w
  /\ (is_Some (build_error env stat_error attachments) ->
      run = (w, Return false))
  /\ (build_error env stat_error attachments = None ->
      exists message,
        prepare env path_name stat_error read_error config to_emails subject
          body_text body_html attachments cc_emails bcc_emails reply_to w
        = (w, Return (message, envelope))
        /\ run = ({| files := files w; trace := trace w ++ [EvSmtp envelope] |},
                  Return (delivered session_error message envelope)))
  /\ (build_error env stat_error attachments = None
      <-> exists rcpts, trace (fst run) = trace w ++ [EvSmtp rcpts]).
Proof.
  intros envelope run. subst run envelope.
  pose proof (gmail_send_email_run config to_emails subject body_text body_html
                attachments cc_emails bcc_emails reply_to w) as Hrun.
  destruct (build_error env stat_error attachments) as [e|].
  - rewrite Hrun. cbn [fst snd].
    split; [by eexists|]. split; [done|]. split; [done|]. split; [done|].
    split; [done|]. intros (rcpts & Htr).
    rewrite <- (app_nil_r (trace w)) in Htr at 1.
    apply app_inv_head in Htr. discriminate Htr.
  - destruct Hrun as (message & Hprep & ->). cbn [fst snd files trace].
    split; [by eexists|]. split; [done|].
    split; [by intros [? ?]|].
    split; [intros _; by exists message|].
    split; [intros _; by eexists|done].
Qed.

End Facts.

(** The call of the driver, with one recipient and both bodies, is the
    general function at these arguments, for a session whose outcome does
    not depend on the message. *)
Lemma driver_call_is_send_email (env : environment)
    (path_name : string -> string) (stat_error read_error : string -> option exn)
    (config : SMTPConfig) (recipient subject body_html body_text : string)
    (w : world) :
  Delivery.send_email env config recipient subject body_html body_text w
  = Gmail.send_email env path_name stat_error read_error
      (fun _ => smtp_error env) config (One recipient) subject
      (Some body_text) (Some body_html) None None None None w.
Proof.
  rewrite send_email_run. unfold send_succeeds.
  pose proof (gmail_send_email_run env path_name stat_error read_error
                (fun _ => smtp_error env) config
                (One recipient) subject (Some body_text) (Some body_html)
                None None None None w) as Hrun.
  unfold build_error in Hrun. cbn [default from_option id first_stat_error] in Hrun.
  destruct (mime_error env) as [e|]; [by rewrite Hrun|].
  destruct Hrun as (message & _ & ->). unfold delivered.
  cbn [to_list addresses_of app].
  by destruct (smtp_error env [recipient]).
Qed.


(** A text, an attachment that is on disk and one that is not: the message
    has the text part and one file part. *)
Lemma message_parts_witness :
  build_error refusing (fun _ => None) (Some ["a.txt"; "missing.pdf"]) = None
  /\ exists message,
       text_parts message = [("hello", "plain")]
       /\ file_parts message = [("a.txt", "abc")].
Proof.
  assert (build_error refusing (fun _ => None) (Some ["a.txt"; "missing.pdf"])
          = None) as Hbuild by reflexivity.
  split; [exact Hbuild|].
  destruct (message_parts refusing (fun p => p) (fun _ => None) (fun _ => None)
              (fun _ _ => None) sample_config (One "a@example.com") "Report"
              (Some "hello") None (Some ["a.txt"; "missing.pdf"]) None None None
              {| files := {[ "a.txt" := "abc" ]}; trace := [] |} Hbuild)
    as (message & rcpts & _ & _ & Ht & Hf & _).
  exists message. split; [exact Ht|]. rewrite Hf. vm_compute. reflexivity.
Defined.

(** The existence test of an attachment is refused: [send_email] answers
    [False] and opens no session, although the server would have taken the
    message. *)
Lemma send_email_outcome_witness :
  is_Some (build_error refusing locked_stat (Some ["locked"]))
  /\ Gmail.send_email refusing (fun p => p) locked_stat (fun _ => None)
       (fun _ _ => None) sample_config (One "a@example.com") "Report"
       (Some "hello") None (Some ["locked"]) None None None world0
     = (world0, Return false).
Proof.
  assert (is_Some (build_error refusing locked_stat (Some ["locked"]))) as Hbuild
    by (vm_compute; eexists; reflexivity).
  split; [exact Hbuild|].
  exact (proj1 (proj2 (proj2
           (send_email_outcome refusing (fun p => p) locked_stat (fun _ => None)
              (fun _ _ => None) sample_config (One "a@example.com") "Report"
              (Some "hello") None (Some ["locked"]) None None None world0)))
           Hbuild).
Defined.

End GmailFacts.

(** ** The command lines *)

Module ScriptFacts.
Import Delivery DeliverySpec DeliveryFacts Scripts.

Lemma send_requested_flag argv :
  send_requested argv = existsb is_send_flag argv.
Proof.
  unfold send_requested, is_send_flag.
  induction argv as [|a argv IH]; [done|]. cbn [existsb].
  rewrite <- IH. rewrite (String.eqb_sym "--send-email" a), (String.eqb_sym "-e" a).
  destruct (String.eqb a "--send-email"), (String.eqb a "-e"),
    (existsb (String.eqb "--send-email") argv), (existsb (String.eqb "-e") argv);
    reflexivity.
Qed.

(** X15.  The recipient read from the command line is the argument that
    follows the first [--send-email] or [-e]: [recipient_of] answers [r]
    exactly when the arguments are some arguments without a flag, then a
    flag, then [r]. *)
Theorem recipient_of_spec (argv : list string) (r : string) :
  recipient_of argv = Some r
  <-> exists before flag after,
        argv = before ++ flag :: r :: after
        /\ is_send_flag flag = true
        /\ Forall (fun a => is_send_flag a = false) before.
Proof.
  split.
  - induction argv as [|a argv IH]; [done|]. cbn [recipient_of].
    destruct (is_send_flag a) eqn:Ha.
    + destruct argv as [|next rest]; [done|]. intros [= ->].
      exists [], a, rest. by repeat split.
    + intros H. destruct (IH H) as (before & flag & after & -> & Hf & Hb).
      exists (a :: before), flag, after. repeat split; [done|]. by constructor.
  - intros (before & flag & after & -> & Hf & Hb).
    induction Hb as [|a before Ha Hb IH]; cbn [app recipient_of].
    + by rewrite Hf.
    + by rewrite Ha.
Qed.

Lemma recipient_of_spec_witness :
  recipient_of ["create_html.py"; "0xabc"; "-e"; "you@example.com"]
  = Some "you@example.com".
Proof.
  apply (proj2 (recipient_of_spec
                  ["create_html.py"; "0xabc"; "-e"; "you@example.com"]
                  "you@example.com")).
  exists ["create_html.py"; "0xabc"], "-e", [].
  split; [reflexivity|]. split; [reflexivity|].
  repeat constructor.
Defined.

Section Runs.

Variable rt : runtime.
Variable env : environment.

(** A run that is not asked to deliver opens no SMTP session. *)
Lemma quiet_run address recipient html_path w :
  exists evs,
    trace (fst (create_and_send_report rt env address recipient false
                  html_path w))
    = trace w ++ evs
    /\ forall rcpts, EvSmtp rcpts ∉ evs.
Proof.
  destruct (http_get_json env (positions_url address)) as [data|e] eqn:Hf.
  - destruct (write_error env html_path) as [e|] eqn:Hw.
    + unfold create_and_send_report, bind at 1.
      rewrite (get_user_positions_run env address data) by done.
      unfold bind at 1. rewrite write_report_fails with (e := e) by done.
      exists [EvFetch (positions_url address)].
      split; [by destruct (write_residue env html_path)|].
      intros rcpts Hin. apply list_elem_of_singleton in Hin. discriminate Hin.
    + unfold create_and_send_report, bind at 1.
      rewrite (get_user_positions_run env address data) by done.
      unfold bind at 1. rewrite write_report_run by done.
      cbn [files trace]. rewrite <- app_assoc.
      exists [EvFetch (positions_url address); EvWrite html_path].
      split; [by destruct recipient|].
      intros rcpts Hin.
      apply elem_of_cons in Hin as [Hin|Hin]; [discriminate Hin|].
      apply list_elem_of_singleton in Hin. discriminate Hin.
  - unfold create_and_send_report, bind at 1.
    unfold get_user_positions, bind, log, lift.
    fold (positions_url address). rewrite Hf. cbn [fst trace].
    eexists. split; [reflexivity|].
    intros rcpts Hin. apply list_elem_of_singleton in Hin. discriminate Hin.
Qed.

(** X16.  The script of [create_html.py].  When sending is asked for and
    the flag has no argument after it, or an argument that is empty or
    starts with [-], the script exits with status 1 before anything is
    fetched or written.  Otherwise its status is 0, also when the run
    fails.  Without a flag no SMTP session is opened. *)
Theorem main_exit_status (argv : list string) (w : world) :
  (send_requested argv = true ->
   (forall r, recipient_of argv = Some r ->
      r = EmptyString \/ String.prefix "-" r = true) ->
   main rt env argv w = (w, Return 1%Z))
  /\ (send_requested argv = false \/
      (exists r, recipient_of argv = Some r /\ r <> EmptyString
                 /\ String.prefix "-" r = false) ->
      snd (main rt env argv w) = Return 0%Z)
  /\ (send_requested argv = false ->
      exists evs, trace (fst (main rt env argv w)) = trace w ++ evs
                  /\ forall rcpts, EvSmtp rcpts ∉ evs).
Proof.
  unfold main. split; [|split].
  - intros Hs Hbad. rewrite Hs. cbn [andb].
    destruct (recipient_of argv) as [r|]; [|done].
    destruct (Hbad r eq_refl) as [-> | Hp]; [done|].
    by rewrite Hp, orb_true_r.
  - intros Hok.
    assert (send_requested argv
            && match (if send_requested argv then recipient_of argv else None) with
               | Some r => negb (nonempty r) || String.prefix "-" r
               | None => true
               end = false) as ->.
    { destruct Hok as [-> | (r & Hr & Hne & Hp)]; [done|].
      destruct (send_requested argv); [|done].
      rewrite Hr, Hp. apply nonempty_true in Hne. by rewrite Hne. }
    unfold try_except, bind.
    destruct (create_and_send_report _ _ _ _ _ _ _) as [w' [a|e]]; done.
  - intros Hs. rewrite Hs. cbn [andb].
    unfold try_except, bind.
    destruct (quiet_run (address_of argv) None "polymarket_positions.html" w)
      as (evs & Htr & Hev).
    exists evs. split; [|exact Hev].
    destruct (create_and_send_report _ _ _ _ _ _ _) as [w' [a|e]]; exact Htr.
Qed.

(** X17.  The script of [railway_generate_report.py] takes the address from
    the first argument, else from [POLYMARKET_ADDRESS], else the default.
    It ends with status 0 and the report on disk when the positions are
    fetched and the file is written, and with status 1 otherwise: with the
    files untouched when the fetch fails, and with no file changed but the
    report file, which holds what the failed write left in it, when the
    write fails.  It never opens an SMTP session. *)
Theorem railway_main_spec (argv : list string) (w : world) :
  let address :=
    match argv with
    | _ :: a :: _ => a
    | _ => getenv_default env "POLYMARKET_ADDRESS" default_address
    end in
  let path := "polymarket_positions.html" in
  match http_get_json env (positions_url address), write_error env path with
  | Return data, None =>
      railway_main rt env argv w
      = ({| files :=
              <[path := template env
                  (df_to_pretty_html_marketstyle rt (titled (DataFrame_of data)))]>
                (files w);
            trace := trace w ++ [EvFetch (positions_url address); EvWrite path] |},
         Return 0%Z)
  | Return data, Some _ =>
      railway_main rt env argv w
      = ({| files := match write_residue env path with
                     | Some partial => <[path := partial]> (files w)
                     | None => files w
                     end;
            trace := trace w ++ [EvFetch (positions_url address)] |},
         Return 1%Z)
  | Raise _, _ =>
      railway_main rt env argv w
      = ({| files := files w;
            trace := trace w ++ [EvFetch (positions_url address)] |},
         Return 1%Z)
  end.
Proof.
  intros address path.
  assert (railway_main rt env argv w
          = try_except
              (df <- get_user_positions env address ;;
               write_report rt env (titled df) path ;;;
               ret 0%Z)
              (fun e => Some (ret 1%Z)) w) as ->.
  { unfold railway_main. subst address. by destruct argv as [|? [|? ?]]. }
  unfold try_except, bind.
  destruct (http_get_json env (positions_url address)) as [data|e] eqn:Hf.
  - rewrite (get_user_positions_run env address data) by done.
    destruct (write_error env path) as [e|] eqn:Hw.
    + rewrite write_report_fails with (e := e) by done.
      by destruct (write_residue env path).
    + rewrite write_report_run by done.
      cbn [files trace]. by rewrite <- app_assoc.
  - unfold get_user_positions, bind, log, lift.
    fold (positions_url address). by rewrite Hf.
Qed.

End Runs.

Lemma main_exit_status_witness :
  send_requested ["create_html.py"; "0xabc"; "--send-email"] = true
  /\ main SampleRuntime.py refusing ["create_html.py"; "0xabc"; "--send-email"]
       world0
     = (world0, Return 1%Z).
Proof.
  assert (send_requested ["create_html.py"; "0xabc"; "--send-email"] = true)
    as Hs by reflexivity.
  split; [exact Hs|].
  apply (proj1 (main_exit_status SampleRuntime.py refusing
                  ["create_html.py"; "0xabc"; "--send-email"] world0) Hs).
  intros r Hr. vm_compute in Hr. discriminate Hr.
Defined.

End ScriptFacts.
